(** * The agent dashboard's state synchronizer

    A shallow embedding of the React front end of the multimodal agent:
    the component state of [App], the polling hook [useAgentPolling], the
    six operator actions, the pending-question poll and the parts of the
    render function that gate the task input and the Reset / Kill buttons.

    React state is one record ([App]); a [useState] setter is a record
    update.  Everything that lives outside React state (the variables a
    [useEffect] body closes over, browser timers, [alert], HTTP requests,
    page reloads) is kept in a [World] around it.  Asynchronous functions
    are written in a small monad whose completions are "resume", "return"
    and "throw", so that [await], [try]/[catch] and an early [return] read
    as they do in the source.  One asynchronous function runs to
    completion per event: the result of each request it awaits is part of
    the event. *)

From Stdlib Require Import String List Bool Arith PArith NArith Lia.
From Stdlib Require Import DecimalString DecimalPos DecimalN.
Import ListNotations.
Local Open Scope string_scope.
Local Open Scope list_scope.

(** ** JavaScript values *)

Module JS.

(** Truthiness of a string: only the empty string is falsy. *)
Definition truthy (s : string) : bool :=
  match s with
  | EmptyString => false
  | String _ _ => true
  end.

(** [x || d] where [x] is a string or [undefined]/[null]. *)
Definition str_or (x : option string) (d : string) : string :=
  match x with
  | Some s => if truthy s then s else d
  | None => d
  end.

(** [x || d] where [x] is an array or [undefined]; every array is truthy. *)
Definition arr_or {A : Type} (x : option (list A)) (d : list A) : list A :=
  match x with
  | Some l => l
  | None => d
  end.

(** [x === lit] where [x] is a string or [undefined]. *)
Definition strict_eq (x : option string) (lit : string) : bool :=
  match x with
  | Some s => String.eqb s lit
  | None => false
  end.

(** [!!x] for a string or [null]. *)
Definition to_bool (x : option string) : bool :=
  match x with
  | Some s => truthy s
  | None => false
  end.

(** [!s.trim()] for strings of code units below 256: the string holds
    nothing but white space (tab, line feed, vertical tab, form feed,
    carriage return, space, no-break space). *)
Definition white (c : Ascii.ascii) : bool :=
  let n := Ascii.nat_of_ascii c in
  (Nat.leb 9 n && Nat.leb n 13) || Nat.eqb n 32 || Nat.eqb n 160.

Fixpoint blank (s : string) : bool :=
  match s with
  | EmptyString => true
  | String c rest => white c && blank rest
  end.

(** Decimal rendering of a number inside a template literal. *)
Definition number_to_string (n : N) : string :=
  NilZero.string_of_uint (N.to_uint n).

End JS.

(** ** The remote control surface (services/api.js) *)

(** The body of a [/status] response. *)
Module Snapshot.

Record PlanStep := { description : option string; action : option string }.

Record ActionRecord := { record_action : option string }.

Record t := {
  status : option string;
  current_task : option string;
  current_plan : list PlanStep;
  plan_step : option nat;
  history : list ActionRecord
}.

(** The object literal [{}]. *)
Definition empty : t :=
  {| status := None; current_task := None; current_plan := [];
     plan_step := None; history := [] |}.

End Snapshot.

(** [e.response?.data?.error] of a rejected axios call: [None] when any
    link of the chain is missing. *)
Record AxiosError := { response_data_error : option string }.

(** How an awaited request settles. *)
Inductive Settled (A : Type) : Type :=
| Fulfilled (a : A)
| Rejected (e : AxiosError).
Arguments Fulfilled {A} a.
Arguments Rejected {A} e.

Record LogsBody := { logs_field : option (list string) }.

Record UserInputBody := { user_input_field : option string }.

Record QuestionBody := { question_field : option string }.

Definition API_BASE : string := "http://127.0.0.1:8000".

(** What the page does to the outside, in order. *)
Inductive Output : Type :=
| Get (url : string)
| Post (url : string) (body : option (string * string))
| Alert (message : string)
| Reload.

(** ** React state of [App] *)

Record App := {
  task : string;
  userInput : string;
  status : Snapshot.t;
  logs : list string;
  screenshotUrl : string;
  loading : bool;
  logsOpen : bool;
  fresh : bool;
  planningStuck : bool;
  editingUserInput : bool;
  killing : bool;
  quotaError : bool;
  pendingQuestion : option string;
  pendingAnswer : string
}.

(** The arguments of the [useState] calls. *)
Definition initialApp : App :=
  {| task := ""; userInput := ""; status := Snapshot.empty; logs := [];
     screenshotUrl := ""; loading := false; logsOpen := false; fresh := true;
     planningStuck := false; editingUserInput := false; killing := false;
     quotaError := false; pendingQuestion := None; pendingAnswer := "" |}.

Definition updTask (v : string) (a : App) : App :=
  {| task := v; userInput := userInput a; status := status a; logs := logs a;
     screenshotUrl := screenshotUrl a; loading := loading a; logsOpen := logsOpen a;
     fresh := fresh a; planningStuck := planningStuck a;
     editingUserInput := editingUserInput a; killing := killing a;
     quotaError := quotaError a; pendingQuestion := pendingQuestion a;
     pendingAnswer := pendingAnswer a |}.

Definition updUserInput (v : string) (a : App) : App :=
  {| task := task a; userInput := v; status := status a; logs := logs a;
     screenshotUrl := screenshotUrl a; loading := loading a; logsOpen := logsOpen a;
     fresh := fresh a; planningStuck := planningStuck a;
     editingUserInput := editingUserInput a; killing := killing a;
     quotaError := quotaError a; pendingQuestion := pendingQuestion a;
     pendingAnswer := pendingAnswer a |}.

Definition updStatus (v : Snapshot.t) (a : App) : App :=
  {| task := task a; userInput := userInput a; status := v; logs := logs a;
     screenshotUrl := screenshotUrl a; loading := loading a; logsOpen := logsOpen a;
     fresh := fresh a; planningStuck := planningStuck a;
     editingUserInput := editingUserInput a; killing := killing a;
     quotaError := quotaError a; pendingQuestion := pendingQuestion a;
     pendingAnswer := pendingAnswer a |}.

Definition updLogs (v : list string) (a : App) : App :=
  {| task := task a; userInput := userInput a; status := status a; logs := v;
     screenshotUrl := screenshotUrl a; loading := loading a; logsOpen := logsOpen a;
     fresh := fresh a; planningStuck := planningStuck a;
     editingUserInput := editingUserInput a; killing := killing a;
     quotaError := quotaError a; pendingQuestion := pendingQuestion a;
     pendingAnswer := pendingAnswer a |}.

Definition updScreenshotUrl (v : string) (a : App) : App :=
  {| task := task a; userInput := userInput a; status := status a; logs := logs a;
     screenshotUrl := v; loading := loading a; logsOpen := logsOpen a;
     fresh := fresh a; planningStuck := planningStuck a;
     editingUserInput := editingUserInput a; killing := killing a;
     quotaError := quotaError a; pendingQuestion := pendingQuestion a;
     pendingAnswer := pendingAnswer a |}.

Definition updLoading (v : bool) (a : App) : App :=
  {| task := task a; userInput := userInput a; status := status a; logs := logs a;
     screenshotUrl := screenshotUrl a; loading := v; logsOpen := logsOpen a;
     fresh := fresh a; planningStuck := planningStuck a;
     editingUserInput := editingUserInput a; killing := killing a;
     quotaError := quotaError a; pendingQuestion := pendingQuestion a;
     pendingAnswer := pendingAnswer a |}.

Definition updLogsOpen (v : bool) (a : App) : App :=
  {| task := task a; userInput := userInput a; status := status a; logs := logs a;
     screenshotUrl := screenshotUrl a; loading := loading a; logsOpen := v;
     fresh := fresh a; planningStuck := planningStuck a;
     editingUserInput := editingUserInput a; killing := killing a;
     quotaError := quotaError a; pendingQuestion := pendingQuestion a;
     pendingAnswer := pendingAnswer a |}.

Definition updFresh (v : bool) (a : App) : App :=
  {| task := task a; userInput := userInput a; status := status a; logs := logs a;
     screenshotUrl := screenshotUrl a; loading := loading a; logsOpen := logsOpen a;
     fresh := v; planningStuck := planningStuck a;
     editingUserInput := editingUserInput a; killing := killing a;
     quotaError := quotaError a; pendingQuestion := pendingQuestion a;
     pendingAnswer := pendingAnswer a |}.

Definition updPlanningStuck (v : bool) (a : App) : App :=
  {| task := task a; userInput := userInput a; status := status a; logs := logs a;
     screenshotUrl := screenshotUrl a; loading := loading a; logsOpen := logsOpen a;
     fresh := fresh a; planningStuck := v; editingUserInput := editingUserInput a;
     killing := killing a; quotaError := quotaError a;
     pendingQuestion := pendingQuestion a; pendingAnswer := pendingAnswer a |}.

Definition updEditingUserInput (v : bool) (a : App) : App :=
  {| task := task a; userInput := userInput a; status := status a; logs := logs a;
     screenshotUrl := screenshotUrl a; loading := loading a; logsOpen := logsOpen a;
     fresh := fresh a; planningStuck := planningStuck a; editingUserInput := v;
     killing := killing a; quotaError := quotaError a;
     pendingQuestion := pendingQuestion a; pendingAnswer := pendingAnswer a |}.

Definition updKilling (v : bool) (a : App) : App :=
  {| task := task a; userInput := userInput a; status := status a; logs := logs a;
     screenshotUrl := screenshotUrl a; loading := loading a; logsOpen := logsOpen a;
     fresh := fresh a; planningStuck := planningStuck a;
     editingUserInput := editingUserInput a; killing := v; quotaError := quotaError a;
     pendingQuestion := pendingQuestion a; pendingAnswer := pendingAnswer a |}.

Definition updQuotaError (v : bool) (a : App) : App :=
  {| task := task a; userInput := userInput a; status := status a; logs := logs a;
     screenshotUrl := screenshotUrl a; loading := loading a; logsOpen := logsOpen a;
     fresh := fresh a; planningStuck := planningStuck a;
     editingUserInput := editingUserInput a; killing := killing a; quotaError := v;
     pendingQuestion := pendingQuestion a; pendingAnswer := pendingAnswer a |}.

Definition updPendingQuestion (v : option string) (a : App) : App :=
  {| task := task a; userInput := userInput a; status := status a; logs := logs a;
     screenshotUrl := screenshotUrl a; loading := loading a; logsOpen := logsOpen a;
     fresh := fresh a; planningStuck := planningStuck a;
     editingUserInput := editingUserInput a; killing := killing a;
     quotaError := quotaError a; pendingQuestion := v;
     pendingAnswer := pendingAnswer a |}.

Definition updPendingAnswer (v : string) (a : App) : App :=
  {| task := task a; userInput := userInput a; status := status a; logs := logs a;
     screenshotUrl := screenshotUrl a; loading := loading a; logsOpen := logsOpen a;
     fresh := fresh a; planningStuck := planningStuck a;
     editingUserInput := editingUserInput a; killing := killing a;
     quotaError := quotaError a; pendingQuestion := pendingQuestion a;
     pendingAnswer := v |}.

(** ** What lives outside React state *)

(** The variables of one run of the effect of [useAgentPolling]: the
    dependency values it ran with, the [editingUserInput] its [poll]
    closure captured, and the two [let] variables of the effect body. *)
Record PollingEffect := {
  dep_fresh : bool;
  dep_quotaError : bool;
  closure_editingUserInput : bool;
  planningTimer : option positive;
  interval : option positive
}.

(** Timer handles are positive integers, so a handle is always truthy.
    The only callback the page ever passes to [setTimeout] is
    [() => setPlanningStuck(true)], so a pending timeout is its handle and
    its deadline in milliseconds. *)
Record World := {
  app : App;
  polling : PollingEffect;
  questionInterval : option positive;
  clock : N;
  timeouts : list (positive * N);
  next_handle : positive;
  trace : list Output
}.

Definition withApp (f : App -> App) (w : World) : World :=
  {| app := f (app w); polling := polling w;
     questionInterval := questionInterval w; clock := clock w;
     timeouts := timeouts w; next_handle := next_handle w; trace := trace w |}.

Definition withPolling (p : PollingEffect) (w : World) : World :=
  {| app := app w; polling := p;
     questionInterval := questionInterval w; clock := clock w;
     timeouts := timeouts w; next_handle := next_handle w; trace := trace w |}.

Definition withTimeouts (l : list (positive * N)) (w : World) : World :=
  {| app := app w; polling := polling w;
     questionInterval := questionInterval w; clock := clock w;
     timeouts := l; next_handle := next_handle w; trace := trace w |}.

Definition emit (o : Output) (w : World) : World :=
  {| app := app w; polling := polling w;
     questionInterval := questionInterval w; clock := clock w;
     timeouts := timeouts w; next_handle := next_handle w;
     trace := trace w ++ [o] |}.

(** ** Asynchronous functions *)

Inductive Completion (A : Type) : Type :=
| Resume (a : A) (w : World)
| Return (w : World)
| Throw (e : AxiosError) (w : World).
Arguments Resume {A} a w.
Arguments Return {A} w.
Arguments Throw {A} e w.

Definition Async (A : Type) : Type := World -> Completion A.

Definition ret {A : Type} (a : A) : Async A := fun w => Resume a w.

Definition bind {A B : Type} (c : Async A) (k : A -> Async B) : Async B :=
  fun w =>
    match c w with
    | Resume a w' => k a w'
    | Return w' => Return w'
    | Throw e w' => Throw e w'
    end.

Notation "x <- c1 ;; c2" := (bind c1 (fun x => c2))
  (at level 61, c1 at next level, right associativity).
Notation "c1 ;; c2" := (bind c1 (fun _ => c2))
  (at level 61, right associativity).

(** [return;] *)
Definition return_ {A : Type} : Async A := fun w => Return w.

(** [await p] for a promise that settles as [s]. *)
Definition await {A : Type} (s : Settled A) : Async A :=
  fun w =>
    match s with
    | Fulfilled a => Resume a w
    | Rejected e => Throw e w
    end.

(** [try { body } catch (e) { handler }] *)
Definition try_catch (body : Async unit) (handler : AxiosError -> Async unit)
  : Async unit :=
  fun w =>
    match body w with
    | Throw e w' => handler e w'
    | other => other
    end.

(** The world an asynchronous function leaves behind, however it ends
    (a rejection nobody catches is dropped). *)
Definition run {A : Type} (c : Async A) (w : World) : World :=
  match c w with
  | Resume _ w' => w'
  | Return w' => w'
  | Throw _ w' => w'
  end.

Definition modify (f : World -> World) : Async unit :=
  fun w => Resume tt (f w).

Definition read {A : Type} (f : App -> A) : Async A :=
  fun w => Resume (f (app w)) w.

Definition when (b : bool) (c : Async unit) : Async unit :=
  if b then c else ret tt.

(** *** useState setters, [alert], timers *)

Definition setTask (v : string) : Async unit := modify (withApp (updTask v)).
Definition setUserInput (v : string) : Async unit := modify (withApp (updUserInput v)).
Definition setStatus (v : Snapshot.t) : Async unit := modify (withApp (updStatus v)).
Definition setLogs (v : list string) : Async unit := modify (withApp (updLogs v)).
Definition setScreenshotUrl (v : string) : Async unit := modify (withApp (updScreenshotUrl v)).
Definition setLoading (v : bool) : Async unit := modify (withApp (updLoading v)).
Definition setLogsOpen (v : bool) : Async unit := modify (withApp (updLogsOpen v)).
Definition setFresh (v : bool) : Async unit := modify (withApp (updFresh v)).
Definition setPlanningStuck (v : bool) : Async unit := modify (withApp (updPlanningStuck v)).
Definition setEditingUserInput (v : bool) : Async unit := modify (withApp (updEditingUserInput v)).
Definition setKilling (v : bool) : Async unit := modify (withApp (updKilling v)).
Definition setQuotaError (v : bool) : Async unit := modify (withApp (updQuotaError v)).
Definition setPendingQuestion (v : option string) : Async unit := modify (withApp (updPendingQuestion v)).
Definition setPendingAnswer (v : string) : Async unit := modify (withApp (updPendingAnswer v)).

Definition alert (message : string) : Async unit := modify (emit (Alert message)).

(** Hands out the next timer handle. *)
Definition allocate (w : World) : positive * World :=
  (next_handle w,
   {| app := app w; polling := polling w;
      questionInterval := questionInterval w; clock := clock w;
      timeouts := timeouts w; next_handle := Pos.succ (next_handle w);
      trace := trace w |}).

Definition setTimeout (delay : N) : Async positive :=
  fun w =>
    let (h, w') := allocate w in
    Resume h (withTimeouts (timeouts w' ++ [(h, (clock w' + delay)%N)]) w').

Definition cancel (h : positive) (l : list (positive * N)) : list (positive * N) :=
  filter (fun t => negb (Pos.eqb (fst t) h)) l.

Definition clearTimeout (h : positive) : Async unit :=
  modify (fun w => withTimeouts (cancel h (timeouts w)) w).

(** ** services/api.js *)

Module Api.

(** The template literal [`${API_BASE}path`]. *)
Definition endpoint (path : string) : string := String.append API_BASE path.

Definition fetchStatus (s : Settled Snapshot.t) : Async Snapshot.t :=
  modify (emit (Get (endpoint "/status"))) ;; await s.

Definition fetchLogs (s : Settled LogsBody) : Async LogsBody :=
  modify (emit (Get (endpoint "/logs"))) ;; await s.

Definition fetchUserInput (s : Settled UserInputBody) : Async UserInputBody :=
  modify (emit (Get (endpoint "/user_input"))) ;; await s.

(** The cache-busting query is [Date.now()]. *)
Definition fetchScreenshotUrl : Async string :=
  fun w => Resume (endpoint "/screenshot?" ++ JS.number_to_string (clock w))%string w.

Definition submitTask (task : string) (s : Settled unit) : Async unit :=
  modify (emit (Post (endpoint "/task") (Some ("task", task)))) ;; await s.

Definition submitUserInput (userInput : string) (s : Settled unit) : Async unit :=
  modify (emit (Post (endpoint "/user_input") (Some ("user_input", userInput)))) ;;
  await s.

Definition killAgent (s : Settled unit) : Async unit :=
  modify (emit (Post (endpoint "/kill") None)) ;; await s.

Definition clearLogs (s : Settled unit) : Async unit :=
  modify (emit (Post (endpoint "/clear_logs") None)) ;; await s.

End Api.

(** ** hooks/useAgentPolling.js *)

(** How the three requests of one poll cycle settle. *)
Record PollResponses := {
  status_response : Settled Snapshot.t;
  logs_response : Settled LogsBody;
  user_input_response : Settled UserInputBody
}.

Definition PLANNING_TIMEOUT : N := 30000.
Definition POLL_INTERVAL : N := 3000.

Definition getPlanningTimer : Async (option positive) :=
  fun w => Resume (planningTimer (polling w)) w.

Definition assignPlanningTimer (h : positive) : Async unit :=
  modify (fun w =>
    withPolling
      {| dep_fresh := dep_fresh (polling w);
         dep_quotaError := dep_quotaError (polling w);
         closure_editingUserInput := closure_editingUserInput (polling w);
         planningTimer := Some h;
         interval := interval (polling w) |} w).

(** The [editingUserInput] that [poll] reads is the one of the render in
    which the effect last ran: the effect's dependency array is
    [[fresh, quotaError]]. *)
Definition getClosureEditingUserInput : Async bool :=
  fun w => Resume (closure_editingUserInput (polling w)) w.

Definition poll (r : PollResponses) : Async unit :=
  status <- Api.fetchStatus (status_response r) ;;
  setStatus status ;;
  when (JS.strict_eq (Snapshot.status status) "quota_exceeded")
    (setPlanningStuck false ;; return_) ;;
  (if JS.strict_eq (Snapshot.status status) "planning" then
     planningTimer <- getPlanningTimer ;;
     match planningTimer with
     | None => h <- setTimeout PLANNING_TIMEOUT ;; assignPlanningTimer h
     | Some _ => ret tt
     end
   else
     setPlanningStuck false ;;
     planningTimer <- getPlanningTimer ;;
     match planningTimer with
     | Some h => clearTimeout h
     | None => ret tt
     end) ;;
  logs <- Api.fetchLogs (logs_response r) ;;
  setLogs (JS.arr_or (logs_field logs) []) ;;
  userInput <- Api.fetchUserInput (user_input_response r) ;;
  editingUserInput <- getClosureEditingUserInput ;;
  when (negb editingUserInput)
    (setUserInput (JS.str_or (user_input_field userInput) "")) ;;
  url <- Api.fetchScreenshotUrl ;;
  setScreenshotUrl url.

(** The condition under which the effect body starts the loop. *)
Definition pollingCondition (a : App) : bool :=
  negb (fresh a) && negb (quotaError a).

(** Either cleanup function: [clearInterval(interval)] and, if
    [planningTimer] is set, [clearTimeout(planningTimer)]. *)
Definition pollingCleanup (w : World) : World :=
  match planningTimer (polling w) with
  | Some h => withTimeouts (cancel h (timeouts w)) w
  | None => w
  end.

(** One run of the effect body with the props of the current render. *)
Definition pollingEffect (w : World) : World :=
  let a := app w in
  if pollingCondition a then
    let (h, w') := allocate w in
    withPolling
      {| dep_fresh := fresh a; dep_quotaError := quotaError a;
         closure_editingUserInput := editingUserInput a;
         planningTimer := None; interval := Some h |} w'
  else
    withPolling
      {| dep_fresh := fresh a; dep_quotaError := quotaError a;
         closure_editingUserInput := editingUserInput a;
         planningTimer := None; interval := None |} w.

(** React after a render: the effect is cleaned up and run again exactly
    when [fresh] or [quotaError] differs from the value it last ran with. *)
Definition rerender (w : World) : World :=
  if Bool.eqb (fresh (app w)) (dep_fresh (polling w))
     && Bool.eqb (quotaError (app w)) (dep_quotaError (polling w))
  then w
  else pollingEffect (pollingCleanup w).

(** The main loop is running when the effect holds an interval. *)
Definition pollingRuns (w : World) : bool :=
  match interval (polling w) with
  | Some _ => true
  | None => false
  end.

(** A timeout that is due calls [setPlanningStuck(true)] and is gone. *)
Definition isDue (now : N) (t : positive * N) : bool := N.leb (snd t) now.

Definition elapse (dt : N) (w : World) : World :=
  let now := (clock w + dt)%N in
  let fired := existsb (isDue now) (timeouts w) in
  {| app := if fired then updPlanningStuck true (app w) else app w;
     polling := polling w;
     questionInterval := questionInterval w;
     clock := now;
     timeouts := filter (fun t => negb (isDue now t)) (timeouts w);
     next_handle := next_handle w;
     trace := trace w |}.

(** ** App.js *)

(** The pending-question poll: its own effect, with no dependencies, and
    a [catch] that swallows every failure. *)
Definition QUESTION_INTERVAL : N := 2000.

Definition pollPendingQuestion (s : Settled QuestionBody) : Async unit :=
  try_catch
    (modify (emit (Get "http://127.0.0.1:8000/pending_question")) ;;
     res <- await s ;;
     setPendingQuestion (question_field res))
    (fun _ => ret tt).

(** The page as it is once both effects of the first render have run. *)
Definition mount (now : N) (sofar : list Output) : World :=
  let w :=
    pollingEffect
      {| app := initialApp;
         polling := {| dep_fresh := true; dep_quotaError := false;
                       closure_editingUserInput := false;
                       planningTimer := None; interval := None |};
         questionInterval := None; clock := now; timeouts := [];
         next_handle := 1%positive; trace := sofar |} in
  let (h, w') := allocate w in
  {| app := app w'; polling := polling w'; questionInterval := Some h;
     clock := clock w'; timeouts := timeouts w';
     next_handle := next_handle w'; trace := trace w' |}.

(** [window.location.reload()] asks the browser for the page again; the
    handler that called it runs on to its end, and only then does the
    browser replace the page (see [navigation]). *)
Definition reload : Async unit := modify (emit Reload).

Definition submitTask (s : Settled unit) : Async unit :=
  setLoading true ;;
  try_catch
    (task <- read task ;;
     Api.submitTask task s ;;
     setTask "" ;;
     setFresh false)
    (fun e => alert (JS.str_or (response_data_error e) "Failed to submit task")) ;;
  setLoading false.

Definition submitUserInput (s : Settled unit) : Async unit :=
  setLoading true ;;
  try_catch
    (userInput <- read userInput ;;
     Api.submitUserInput userInput s ;;
     setEditingUserInput false)
    (fun e => alert "Failed to send direction/feedback") ;;
  setLoading false.

Definition resetAgent (s : Settled unit) : Async unit :=
  setLoading true ;;
  try_catch
    (Api.killAgent s ;;
     setTask "" ;;
     setUserInput "" ;;
     setStatus Snapshot.empty ;;
     setLogs [] ;;
     setScreenshotUrl "" ;;
     setLogsOpen false ;;
     setFresh true ;;
     setQuotaError false)
    (fun e => alert "Failed to reset agent") ;;
  setLoading false.

(** The state updates of a successful kill, up to the reload. *)
Definition killSwitchUpdates : Async unit :=
  setTask "" ;;
  setStatus Snapshot.empty ;;
  setLogs [] ;;
  setScreenshotUrl "" ;;
  setLogsOpen false ;;
  setUserInput "" ;;
  setFresh true ;;
  setKilling false.

Definition killSwitch (s : Settled unit) : Async unit :=
  setKilling true ;;
  setLoading true ;;
  try_catch
    (Api.killAgent s ;;
     killSwitchUpdates ;;
     reload)
    (fun e => alert "Failed to kill/reset agent" ;; setKilling false) ;;
  setLoading false.

Definition clearLogs (s : Settled unit) : Async unit :=
  setLoading true ;;
  try_catch
    (Api.clearLogs s ;;
     setLogs [])
    (fun e => alert "Failed to clear logs") ;;
  setLoading false.

(** No [try] here: a rejected request ends the function at the [await]. *)
Definition submitPendingAnswer (s : Settled unit) : Async unit :=
  pendingAnswer <- read pendingAnswer ;;
  modify (emit (Post "http://127.0.0.1:8000/pending_answer"
                     (Some ("answer", pendingAnswer)))) ;;
  await s ;;
  setPendingQuestion None ;;
  setPendingAnswer "".

(** *** What the render function passes down *)

(** [status.status === "idle" || ... "completed" || ... "aborted"] *)
Definition statusReady (s : Snapshot.t) : bool :=
  JS.strict_eq (Snapshot.status s) "idle"
  || JS.strict_eq (Snapshot.status s) "completed"
  || JS.strict_eq (Snapshot.status s) "aborted".

(** The [loading] prop of [TaskInput]. *)
Definition taskInputLoading (a : App) : bool :=
  loading a || killing a || quotaError a
  || (negb (fresh a) && negb (statusReady (status a))).

(** TaskInput: the text field is [disabled={loading}], the Send button
    [disabled={loading || !task}]. *)
Definition taskFieldDisabled (a : App) : bool := taskInputLoading a.

Definition taskSendDisabled (a : App) : bool :=
  taskInputLoading a || negb (JS.truthy (task a)).

(** The [loading] prop of [UserInput]; field and button are both
    [disabled={loading}]. *)
Definition userInputLoading (a : App) : bool :=
  loading a || killing a || quotaError a.

(** The block of operator buttons above the task input. *)
Record Controls := {
  notice : option string;
  resetShown : bool;
  killShown : bool;
  buttonsDisabled : bool
}.

Definition controls (a : App) : Controls :=
  if quotaError a then
    {| notice := Some "LLM quota or rate limit exceeded. Please reset or try again later.";
       resetShown := true; killShown := true;
       buttonsDisabled := loading a || killing a |}
  else if planningStuck a then
    {| notice := Some "Agent appears stuck in planning. This may be due to an LLM or parsing error.";
       resetShown := true; killShown := true;
       buttonsDisabled := loading a || killing a |}
  else
    {| notice := None;
       resetShown := negb (fresh a)
                     && (JS.strict_eq (Snapshot.status (status a)) "completed"
                         || JS.strict_eq (Snapshot.status (status a)) "idle"
                         || JS.strict_eq (Snapshot.status (status a)) "aborted");
       killShown := negb (planningStuck a);
       buttonsDisabled := loading a || killing a |}.

Definition resetAvailable (a : App) : bool :=
  resetShown (controls a) && negb (buttonsDisabled (controls a)).

Definition killAvailable (a : App) : bool :=
  killShown (controls a) && negb (buttonsDisabled (controls a)).

(** ** The page as a transition system *)

Inductive Event : Type :=
| ChangeTask (text : string)
| ClickSendTask (s : Settled unit)
| FocusUserInput
| BlurUserInput
| ChangeUserInput (text : string)
| ClickSendUserInput (s : Settled unit)
| ClickReset (s : Settled unit)
| ClickKill (s : Settled unit)
| ToggleLogs
| ClickClearLogs (s : Settled unit)
| ChangeAnswer (text : string)
| ClickSubmitAnswer (s : Settled unit)
| PollTick (r : PollResponses)
| QuestionTick (s : Settled QuestionBody)
| Elapse (dt : N).

(** A handler runs and React renders again. *)
Definition dispatch (c : Async unit) (w : World) : World :=
  rerender (run c w).

Definition isReload (o : Output) : bool :=
  match o with
  | Reload => true
  | _ => false
  end.

(** What the browser does once a handler that started in [w] has left
    [w']: if the handler asked for a reload, the page and its timers are
    gone and a new page is mounted; otherwise the page stays. *)
Definition navigation (w w' : World) : World :=
  if existsb isReload (skipn (length (trace w)) (trace w'))
  then mount (clock w') (trace w')
  else w'.

(** A disabled or unrendered control takes no events; a tick of the main
    interval only comes while the interval exists.  A question that
    arrives while none was showing opens the modal, which takes the focus:
    the directive field blurs, and its [onBlur] runs.  An event is a
    handler or a cycle run from its first statement to its last, so the
    worlds that [steps] reaches are the states in which no request is in
    flight; [loading] and [killing] are true only inside a handler. *)
Definition step (e : Event) (w : World) : World :=
  let a := app w in
  match e with
  | ChangeTask text =>
      if taskFieldDisabled a then w else dispatch (setTask text) w
  | ClickSendTask s =>
      if taskSendDisabled a then w else dispatch (submitTask s) w
  | FocusUserInput =>
      if userInputLoading a then w else dispatch (setEditingUserInput true) w
  | BlurUserInput => dispatch (setEditingUserInput false) w
  | ChangeUserInput text =>
      if userInputLoading a then w else dispatch (setUserInput text) w
  | ClickSendUserInput s =>
      if userInputLoading a then w else dispatch (submitUserInput s) w
  | ClickReset s =>
      if resetAvailable a then dispatch (resetAgent s) w else w
  | ClickKill s =>
      if killAvailable a then navigation w (dispatch (killSwitch s) w) else w
  | ToggleLogs => dispatch (setLogsOpen (negb (logsOpen a))) w
  | ClickClearLogs s =>
      if logsOpen a then dispatch (clearLogs s) w else w
  | ChangeAnswer text =>
      if JS.to_bool (pendingQuestion a) then dispatch (setPendingAnswer text) w else w
  | ClickSubmitAnswer s =>
      if JS.to_bool (pendingQuestion a) && negb (JS.blank (pendingAnswer a))
      then dispatch (submitPendingAnswer s) w else w
  | PollTick r =>
      if pollingRuns w then dispatch (poll r) w else w
  | QuestionTick s =>
      let w' := dispatch (pollPendingQuestion s) w in
      if negb (JS.to_bool (pendingQuestion a)) && JS.to_bool (pendingQuestion (app w'))
      then dispatch (setEditingUserInput false) w'
      else w'
  | Elapse dt => rerender (elapse dt w)
  end.

Definition steps (es : list Event) (w : World) : World :=
  fold_left (fun w e => step e w) es w.

(** A poll cycle followed by the wait for the next tick of the interval. *)
Definition cycle (r : PollResponses) : list Event :=
  [PollTick r; Elapse POLL_INTERVAL].

(** *** Worlds a render has settled *)

(** After a render the effect has run with the current [fresh] and
    [quotaError], and it holds an interval exactly when its condition
    held. *)
Definition settled (w : World) : bool :=
  Bool.eqb (fresh (app w)) (dep_fresh (polling w))
  && Bool.eqb (quotaError (app w)) (dep_quotaError (polling w))
  && Bool.eqb (pollingRuns w) (pollingCondition (app w)).

(** The effect holds an interval exactly when the values it ran with
    met its condition. *)
Definition effectCoherent (w : World) : bool :=
  Bool.eqb (pollingRuns w)
           (negb (dep_fresh (polling w)) && negb (dep_quotaError (polling w))).

(** ** Scenarios *)

Definition snapshotOf (s : string) : Snapshot.t :=
  {| Snapshot.status := Some s; Snapshot.current_task := None;
     Snapshot.current_plan := []; Snapshot.plan_step := None;
     Snapshot.history := [] |}.

(** A poll cycle in which all three requests succeed. *)
Definition answers (s : string) (lines : list string) (mirrored : option string)
  : PollResponses :=
  {| status_response := Fulfilled (snapshotOf s);
     logs_response := Fulfilled {| logs_field := Some lines |};
     user_input_response := Fulfilled {| user_input_field := mirrored |} |}.

(** The page is loaded and the operator types a first task. *)
Definition typed : World :=
  steps [ChangeTask "Open the calculator app"] (mount 0 []).

(** The task is sent and accepted; the first poll cycle runs. *)
Definition started : World :=
  steps (ClickSendTask (Fulfilled tt) :: cycle (answers "planning" [] None)) typed.

(** The mirror of a directive that was sent before this page was loaded. *)
Definition mirrored : option string := Some "scroll down first".

(** The operator then clicks into the directive field and types. *)
Definition composing : World :=
  steps [FocusUserInput; ChangeUserInput "please wait"] started.

(** The agent leaves planning and comes back to it. *)
Definition reentered : World :=
  steps (cycle (answers "idle" [] None) ++ cycle (answers "planning" [] None))
        started.

(** Twelve more cycles, 36 seconds, all of them reporting planning. *)
Definition dwelling : World :=
  steps (concat (repeat (cycle (answers "planning" [] None)) 12)) reentered.

(** The agent reports that its quota is used up. *)
Definition exhausted : World :=
  steps [PollTick (answers "quota_exceeded" [] None)] started.

(** A first task is on its way: [submitTask] has set [loading] and is
    waiting for the server. *)
Definition submitting : App := app (run (setLoading true) typed).

(** ** components/StatusSummary.js *)

Module StatusSummary.

(** What a list item shows: a text, or [JSON.stringify] of the object
    when it has no text to offer. *)
Inductive Label (A : Type) : Type :=
| Text (s : string)
| Stringified (a : A).
Arguments Text {A} s.
Arguments Stringified {A} a.

(** The truthy strings among string-or-undefined. *)
Definition truthyText (x : option string) : option string :=
  match x with
  | Some s => if JS.truthy s then Some s else None
  | None => None
  end.

(** [step.description || step.action || JSON.stringify(step)] *)
Definition stepLabel (st : Snapshot.PlanStep) : Label Snapshot.PlanStep :=
  match truthyText (Snapshot.description st) with
  | Some d => Text d
  | None =>
      match truthyText (Snapshot.action st) with
      | Some a => Text a
      | None => Stringified st
      end
  end.

(** [h.action?.action || JSON.stringify(h.action)] *)
Definition actionLabel (h : Snapshot.ActionRecord) : Label Snapshot.ActionRecord :=
  match truthyText (Snapshot.record_action h) with
  | Some a => Text a
  | None => Stringified h
  end.

(** [idx === status.plan_step] *)
Definition isCurrent (idx : nat) (plan_step : option nat) : bool :=
  match plan_step with
  | Some k => Nat.eqb idx k
  | None => false
  end.

(** One [<li>] of the plan: its label, whether it is set in bold, and
    whether it carries the "In Progress" chip. *)
Record PlanItem := {
  label : Label Snapshot.PlanStep;
  bold : bool;
  chip : bool
}.

(** [l.map((x, idx) => f(x, idx))], counting from [i]. *)
Fixpoint mapi {A B : Type} (f : A -> nat -> B) (i : nat) (l : list A) : list B :=
  match l with
  | [] => []
  | x :: rest => f x i :: mapi f (S i) rest
  end.

(** [l.slice(-n)] *)
Definition sliceLast {A : Type} (n : nat) (l : list A) : list A :=
  skipn (length l - n) l.

Record View := {
  statusChip : string;
  taskChip : option string;
  currentPlan : option (list PlanItem);
  recentActions : option (list (Label Snapshot.ActionRecord))
}.

(** The component; [None] for [status] is a value that is no object, and
    [None] as result is [null]. *)
Definition render (status : option Snapshot.t) : option View :=
  match status with
  | None => None
  | Some st =>
      Some
        {| statusChip := String.append "Status: " (JS.str_or (Snapshot.status st) "-");
           taskChip :=
             option_map (String.append "Task: ") (truthyText (Snapshot.current_task st));
           currentPlan :=
             match Snapshot.current_plan st with
             | [] => None
             | plan =>
                 Some (mapi (fun step idx =>
                               {| label := stepLabel step;
                                  bold := isCurrent idx (Snapshot.plan_step st);
                                  chip := isCurrent idx (Snapshot.plan_step st) |})
                            0 plan)
             end;
           recentActions :=
             match Snapshot.history st with
             | [] => None
             | history => Some (map actionLabel (rev (sliceLast 3 history)))
             end |}
  end.

End StatusSummary.

(** [{!fresh && <StatusSummary status={status} />}] *)
Definition statusSummary (a : App) : option StatusSummary.View :=
  if fresh a then None else StatusSummary.render (Some (status a)).

(** ** ScreenshotPanel *)

Module ScreenshotPanel.

Inductive View : Type :=
| Image (src : string)
| NoScreenshot.

(** The panel's own state is [imgError]; [screenshotUrl] is its prop. *)
Record Panel := { screenshotUrl : string; imgError : bool }.

Definition initial (url : string) : Panel :=
  {| screenshotUrl := url; imgError := false |}.

Definition render (p : Panel) : View :=
  if negb (imgError p) then Image (screenshotUrl p) else NoScreenshot.

(** The image fails to load, or the parent passes a new URL. *)
Inductive Event : Type :=
| OnError
| NewUrl (url : string).

Definition step (e : Event) (p : Panel) : Panel :=
  match e with
  | OnError => {| screenshotUrl := screenshotUrl p; imgError := true |}
  | NewUrl url => {| screenshotUrl := url; imgError := imgError p |}
  end.

Definition steps (es : list Event) (p : Panel) : Panel :=
  fold_left (fun p e => step e p) es p.

End ScreenshotPanel.

(** ** More scenarios *)

(** A loop that has just been started and has not polled yet. *)
Definition justStarted : World := steps [ClickSendTask (Fulfilled tt)] typed.

(** A cycle whose three requests all fail. *)
Definition offline : PollResponses :=
  {| status_response := Rejected {| response_data_error := None |};
     logs_response := Rejected {| response_data_error := None |};
     user_input_response := Rejected {| response_data_error := None |} |}.

(** A snapshot with a plan of three steps, the second one running, and
    four actions taken so far. *)
Definition planned : Snapshot.t :=
  {| Snapshot.status := Some "acting";
     Snapshot.current_task := Some "Open the calculator app";
     Snapshot.current_plan :=
       [ {| Snapshot.description := Some "Open the start menu"; Snapshot.action := Some "click" |};
         {| Snapshot.description := None; Snapshot.action := Some "type" |};
         {| Snapshot.description := Some ""; Snapshot.action := None |} ];
     Snapshot.plan_step := Some 1;
     Snapshot.history :=
       [ {| Snapshot.record_action := Some "screenshot" |};
         {| Snapshot.record_action := Some "click" |};
         {| Snapshot.record_action := None |};
         {| Snapshot.record_action := Some "type" |} ] |}.

(** A loop that was started while the directive field had the focus. *)
Definition startedWhileEditing : World :=
  steps [FocusUserInput; ChangeUserInput "please wait";
         ChangeTask "Open the calculator app"; ClickSendTask (Fulfilled tt)]
        (mount 0 []).

(** * Properties *)

(** Unfolds the monad and the primitives, so that a handler becomes the
    chain of record updates it performs. *)
Ltac unfold_async :=
  unfold dispatch, run, bind, ret, return_, await, try_catch, modify, read, when,
    setTask, setUserInput, setStatus, setLogs, setScreenshotUrl, setLoading,
    setLogsOpen, setFresh, setPlanningStuck, setEditingUserInput, setKilling,
    setQuotaError, setPendingQuestion, setPendingAnswer, alert,
    Api.fetchStatus, Api.fetchLogs, Api.fetchUserInput, Api.fetchScreenshotUrl,
    Api.submitTask, Api.submitUserInput, Api.killAgent, Api.clearLogs,
    getPlanningTimer, assignPlanningTimer, getClosureEditingUserInput,
    setTimeout, clearTimeout, allocate in *.

(** Names the fields of a world, so that projections compute. *)
Ltac open_world w :=
  let a := fresh "a" in
  let p := fresh "p" in
  destruct w as [a p ? ? ? ? ?]; destruct p as [? ? ? ? ?]; cbn in *.

(** Splits on the tests a poll cycle makes. *)
Ltac split_cases :=
  repeat (cbn in *;
          match goal with
          | |- context [JS.strict_eq ?x ?y] => destruct (JS.strict_eq x y) eqn:?
          | |- context [if ?b then _ else _] => is_var b; destruct b
          | |- context [negb ?b] => is_var b; destruct b
          | |- context [match ?o with Some _ => _ | None => _ end] =>
              is_var o; destruct o
          end);
  cbn in *.

Arguments JS.strict_eq : simpl never.

(** ** Rendering *)

Lemma app_pollingCleanup (w : World) : app (pollingCleanup w) = app w.
Proof.
  unfold pollingCleanup. destruct (planningTimer (polling w)); reflexivity.
Qed.

Lemma app_pollingEffect (w : World) : app (pollingEffect w) = app w.
Proof.
  unfold pollingEffect. destruct (pollingCondition (app w)); reflexivity.
Qed.

Lemma trace_pollingEffect (w : World) : trace (pollingEffect w) = trace w.
Proof.
  unfold pollingEffect. destruct (pollingCondition (app w)); reflexivity.
Qed.

Lemma trace_pollingCleanup (w : World) : trace (pollingCleanup w) = trace w.
Proof.
  unfold pollingCleanup. destruct (planningTimer (polling w)); reflexivity.
Qed.

(** A render never touches React state. *)
Lemma app_rerender (w : World) : app (rerender w) = app w.
Proof.
  unfold rerender.
  destruct (_ && _); [reflexivity|].
  now rewrite app_pollingEffect, app_pollingCleanup.
Qed.

Lemma trace_rerender (w : World) : trace (rerender w) = trace w.
Proof.
  unfold rerender.
  destruct (_ && _); [reflexivity|].
  now rewrite trace_pollingEffect, trace_pollingCleanup.
Qed.

Lemma app_dispatch (c : Async unit) (w : World) :
  app (dispatch c w) = app (run c w).
Proof. apply app_rerender. Qed.

Lemma trace_dispatch (c : Async unit) (w : World) :
  trace (dispatch c w) = trace (run c w).
Proof. apply trace_rerender. Qed.

(** The loop runs if and only if [fresh] and [quotaError] are both false:
    that is the guard of the effect body. *)
Lemma pollingEffect_runs (w : World) :
  pollingRuns (pollingEffect w) = true
  <-> fresh (app w) = false /\ quotaError (app w) = false.
Proof.
  unfold pollingRuns, pollingEffect, pollingCondition.
  destruct (fresh (app w)), (quotaError (app w)); cbn; intuition congruence.
Qed.

Lemma settled_pollingEffect (w : World) : settled (pollingEffect w) = true.
Proof.
  unfold settled, pollingRuns, pollingEffect.
  destruct (pollingCondition (app w)) eqn:E; cbn; rewrite E;
    now rewrite !Bool.eqb_reflx.
Qed.

(** Rendering leaves the effect in step with the state, provided the
    effect held an interval exactly when it was meant to. *)
Lemma settled_rerender (w : World) :
  effectCoherent w = true -> settled (rerender w) = true.
Proof.
  unfold effectCoherent. intros H. unfold rerender.
  destruct (Bool.eqb (fresh (app w)) (dep_fresh (polling w))) eqn:E1;
    destruct (Bool.eqb (quotaError (app w)) (dep_quotaError (polling w))) eqn:E2;
    cbn; try apply settled_pollingEffect.
  unfold settled. rewrite E1, E2. cbn.
  apply Bool.eqb_prop in E1, E2. unfold pollingCondition. now rewrite E1, E2.
Qed.

Lemma mount_settled (now : N) (sofar : list Output) : settled (mount now sofar) = true.
Proof. reflexivity. Qed.

Lemma settled_coherent (w : World) : settled w = true -> effectCoherent w = true.
Proof.
  unfold settled, effectCoherent, pollingCondition. intros H.
  apply andb_prop in H as [H H3]. apply andb_prop in H as [H1 H2].
  apply Bool.eqb_prop in H1, H2. now rewrite <- H1, <- H2.
Qed.

(** ** The task channel *)

(** C5.  A task submission that the server accepts empties the task
    field and sets [fresh] to false, and with that render the polling loop
    is running (unless [quotaError] holds it back).  A submission that
    fails shows the server's error text if there is one, else the generic
    sentence, and leaves the task text and [fresh] as they were. *)
Theorem submitTask_outcomes (w : World) (e : AxiosError) :
  settled w = true ->
  (let w' := dispatch (submitTask (Fulfilled tt)) w in
   task (app w') = ""
   /\ fresh (app w') = false
   /\ pollingRuns w' = negb (quotaError (app w)))
  /\
  (let w' := dispatch (submitTask (Rejected e)) w in
   task (app w') = task (app w)
   /\ fresh (app w') = fresh (app w)
   /\ trace w' =
      trace w ++ [Post (Api.endpoint "/task") (Some ("task", task (app w)));
                  Alert (JS.str_or (response_data_error e) "Failed to submit task")]).
Proof.
  intros Hs. split.
  - cbv zeta. rewrite !app_dispatch. unfold submitTask. unfold_async. cbn.
    repeat split.
    unfold settled in Hs.
    apply andb_prop in Hs as [Hs H3]. apply andb_prop in Hs as [H1 H2].
    apply Bool.eqb_prop in H1, H2, H3.
    unfold rerender, pollingRuns, pollingEffect, pollingCleanup, pollingCondition in *.
    destruct w as [a p q c t n tr]; destruct a, p; cbn in *; subst.
    repeat match goal with b : bool |- _ => destruct b end;
      repeat match goal with o : option positive |- _ => destruct o end;
      cbn in *; congruence.
  - cbv zeta. rewrite !app_dispatch, trace_dispatch. unfold submitTask. unfold_async. cbn.
    rewrite <- app_assoc. repeat split.
Qed.

Lemma submitTask_outcomes_witness :
  settled typed = true
  /\ task (app (dispatch (submitTask (Fulfilled tt)) typed)) = ""
  /\ fresh (app (dispatch (submitTask (Fulfilled tt)) typed)) = false
  /\ pollingRuns (dispatch (submitTask (Fulfilled tt)) typed) = true.
Proof.
  split; [reflexivity |].
  exact (proj1 (submitTask_outcomes typed {| response_data_error := None |} eq_refl)).
Defined.

(** ** Reset and Kill *)

(** C8.  When the teardown request of Reset fails, the task text, the
    directive text, the snapshot, the logs, the screenshot reference, the
    visibility of the log panel, [fresh] and [quotaError] are what they
    were, and the operator gets the alert. *)
Theorem resetAgent_failure (w : World) (e : AxiosError) :
  let w' := dispatch (resetAgent (Rejected e)) w in
  task (app w') = task (app w)
  /\ userInput (app w') = userInput (app w)
  /\ status (app w') = status (app w)
  /\ logs (app w') = logs (app w)
  /\ screenshotUrl (app w') = screenshotUrl (app w)
  /\ logsOpen (app w') = logsOpen (app w)
  /\ fresh (app w') = fresh (app w)
  /\ quotaError (app w') = quotaError (app w)
  /\ trace w' = trace w ++ [Post (Api.endpoint "/kill") None;
                            Alert "Failed to reset agent"].
Proof.
  cbv zeta. rewrite !app_dispatch, trace_dispatch. unfold resetAgent. unfold_async. cbn.
  rewrite <- app_assoc. repeat split.
Qed.

(** The state updates that [killSwitch] itself makes leave the pending
    question and the answer draft alone. *)
Lemma killSwitchUpdates_keep_question (w : World) :
  pendingQuestion (app (run killSwitchUpdates w)) = pendingQuestion (app w)
  /\ pendingAnswer (app (run killSwitchUpdates w)) = pendingAnswer (app w).
Proof. split; reflexivity. Qed.

(** A page that has just been mounted holds the initial state and no
    running loop. *)
Lemma mount_initial (now : N) (sofar : list Output) :
  app (mount now sofar) = initialApp /\ pollingRuns (mount now sofar) = false.
Proof. split; reflexivity. Qed.

Lemma clock_rerender (w : World) : clock (rerender w) = clock w.
Proof.
  unfold rerender, pollingEffect, pollingCleanup.
  destruct (_ && _); [reflexivity |].
  destruct (planningTimer (polling w)); cbn;
    destruct (pollingCondition _); reflexivity.
Qed.

Lemma skipn_own_length {A : Type} (l l' : list A) : skipn (length l) (l ++ l') = l'.
Proof. induction l as [| x l IH]; [reflexivity | exact IH]. Qed.

(** What an accepted Kill sends and asks for. *)
Lemma trace_killSwitch_success (w : World) :
  trace (dispatch (killSwitch (Fulfilled tt)) w)
  = trace w ++ [Post (Api.endpoint "/kill") None; Reload].
Proof.
  rewrite trace_dispatch. unfold killSwitch, killSwitchUpdates, reload.
  unfold_async. cbn. now rewrite <- !app_assoc.
Qed.

(** The browser reloads after an accepted Kill and not after a failed
    one. *)
Lemma navigation_killSwitch_success (w : World) :
  navigation w (dispatch (killSwitch (Fulfilled tt)) w)
  = mount (clock w) (trace w ++ [Post (Api.endpoint "/kill") None; Reload]).
Proof.
  unfold navigation. rewrite trace_killSwitch_success, skipn_own_length.
  cbn [existsb isReload orb]. unfold dispatch. rewrite clock_rerender. reflexivity.
Qed.

Lemma navigation_killSwitch_failure (w : World) (e : AxiosError) :
  navigation w (dispatch (killSwitch (Rejected e)) w)
  = dispatch (killSwitch (Rejected e)) w.
Proof.
  unfold navigation.
  assert (H : trace (dispatch (killSwitch (Rejected e)) w)
              = trace w ++ [Post (Api.endpoint "/kill") None;
                            Alert "Failed to kill/reset agent"]).
  { rewrite trace_dispatch. unfold killSwitch. unfold_async. cbn.
    now rewrite <- !app_assoc. }
  rewrite H, skipn_own_length. reflexivity.
Qed.

(** C6.  Whatever the state before, a Kill whose request succeeds clears
    the snapshot, the logs and the directive text and sets [fresh]: these
    are the handler's own updates, made before it asks for the reload; the
    pending question and the answer draft it leaves alone.  The reload it
    asks for then leaves a newly mounted page, on which the pending
    question and its answer draft are empty too, the rest is still empty,
    [fresh] is true and no loop runs. *)
Theorem killSwitch_success (w : World) :
  (let w' := dispatch (killSwitch (Fulfilled tt)) w in
   status (app w') = Snapshot.empty
   /\ logs (app w') = []
   /\ userInput (app w') = ""
   /\ fresh (app w') = true
   /\ pendingQuestion (app w') = pendingQuestion (app w)
   /\ pendingAnswer (app w') = pendingAnswer (app w)
   /\ trace w' = trace w ++ [Post (Api.endpoint "/kill") None; Reload])
  /\
  (let w' := navigation w (dispatch (killSwitch (Fulfilled tt)) w) in
   status (app w') = Snapshot.empty
   /\ logs (app w') = []
   /\ userInput (app w') = ""
   /\ pendingQuestion (app w') = None
   /\ pendingAnswer (app w') = ""
   /\ fresh (app w') = true
   /\ pollingRuns w' = false).
Proof.
  cbv zeta. split.
  - rewrite trace_killSwitch_success. rewrite !app_dispatch.
    unfold killSwitch, killSwitchUpdates, reload. unfold_async. cbn.
    repeat split.
  - rewrite navigation_killSwitch_success. repeat split.
Qed.

(** ** The interjection channel *)

(** C7.  An answer that the server accepts clears the pending question
    and the answer draft and leaves the directive text as it was.  (An
    answer that is rejected changes nothing at all.) *)
Theorem submitPendingAnswer_clears (w : World) :
  (let w' := dispatch (submitPendingAnswer (Fulfilled tt)) w in
   pendingQuestion (app w') = None
   /\ pendingAnswer (app w') = ""
   /\ userInput (app w') = userInput (app w))
  /\ forall e, app (dispatch (submitPendingAnswer (Rejected e)) w) = app w.
Proof.
  split.
  - cbv zeta. rewrite !app_dispatch. unfold submitPendingAnswer. unfold_async. cbn.
    repeat split.
  - intros e. rewrite app_dispatch. unfold submitPendingAnswer. unfold_async. cbn.
    reflexivity.
Qed.

(** C4 as stated fails while an operation is in flight: the first task is
    being submitted, [fresh] is still true and [quotaError] false, and the
    task input is disabled all the same. *)
Lemma taskInput_disabled_while_submitting :
  fresh submitting = true
  /\ quotaError submitting = false
  /\ taskFieldDisabled submitting = true
  /\ taskSendDisabled submitting = true.
Proof. repeat split. Qed.

(** C4, amended.  The task input is disabled whenever [fresh] is false
    and the last status is none of idle, completed, aborted, whenever
    [quotaError] is true, and whenever an operation is in flight
    ([loading] or [killing] true).  It is enabled when no operation is in
    flight, [quotaError] is false, and [fresh] is true or the last status
    is one of the three; the Send button then asks for a task text that is
    not empty. *)
Theorem taskInput_gate (a : App) :
  ((fresh a = false /\ statusReady (status a) = false)
   \/ quotaError a = true \/ loading a = true \/ killing a = true ->
   taskFieldDisabled a = true /\ taskSendDisabled a = true)
  /\
  (loading a = false -> killing a = false -> quotaError a = false ->
   fresh a = true \/ statusReady (status a) = true ->
   taskFieldDisabled a = false
   /\ taskSendDisabled a = negb (JS.truthy (task a))).
Proof.
  unfold taskSendDisabled, taskFieldDisabled, taskInputLoading. split.
  - intros [[Hf Hr] | [Hq | [Hl | Hk]]].
    + rewrite Hf, Hr. cbn. rewrite !Bool.orb_true_r. split; reflexivity.
    + rewrite Hq. rewrite !Bool.orb_true_r. split; reflexivity.
    + rewrite Hl. split; reflexivity.
    + rewrite Hk. rewrite !Bool.orb_true_r. split; reflexivity.
  - intros Hl Hk Hq [Hf | Hr].
    + rewrite Hl, Hk, Hq, Hf. split; reflexivity.
    + rewrite Hl, Hk, Hq, Hr. cbn. rewrite Bool.andb_false_r. split; reflexivity.
Qed.

Lemma taskInput_gate_witness :
  (quotaError (app started) = false
   /\ fresh (app started) = false
   /\ statusReady (status (app started)) = false
   /\ taskFieldDisabled (app started) = true)
  /\
  (fresh submitting = true
   /\ loading submitting = true
   /\ taskFieldDisabled submitting = true)
  /\
  (fresh (app (run (setKilling true) typed)) = true
   /\ killing (app (run (setKilling true) typed)) = true
   /\ taskFieldDisabled (app (run (setKilling true) typed)) = true)
  /\
  (loading initialApp = false
   /\ killing initialApp = false
   /\ fresh initialApp = true
   /\ taskFieldDisabled initialApp = false).
Proof.
  split; [| split; [| split]].
  - do 3 (split; [reflexivity |]).
    exact (proj1 (proj1 (taskInput_gate (app started))
                        (or_introl (conj eq_refl eq_refl)))).
  - do 2 (split; [reflexivity |]).
    exact (proj1 (proj1 (taskInput_gate submitting)
                        (or_intror (or_intror (or_introl eq_refl))))).
  - do 2 (split; [reflexivity |]).
    exact (proj1 (proj1 (taskInput_gate (app (run (setKilling true) typed)))
                        (or_intror (or_intror (or_intror eq_refl))))).
  - do 3 (split; [reflexivity |]).
    exact (proj1 (proj2 (taskInput_gate initialApp)
                        eq_refl eq_refl eq_refl (or_introl eq_refl))).
Defined.

(** ** The poll cycle *)

(** What a cycle leaves alone, however its requests settle: the two
    flags the effect depends on, the variables of the effect other than
    [planningTimer], and the edit flag of the state. *)
Lemma poll_frame (r : PollResponses) (w : World) :
  let w' := run (poll r) w in
  fresh (app w') = fresh (app w)
  /\ quotaError (app w') = quotaError (app w)
  /\ editingUserInput (app w') = editingUserInput (app w)
  /\ dep_fresh (polling w') = dep_fresh (polling w)
  /\ dep_quotaError (polling w') = dep_quotaError (polling w)
  /\ closure_editingUserInput (polling w') = closure_editingUserInput (polling w)
  /\ interval (polling w') = interval (polling w).
Proof.
  cbv zeta. unfold poll. unfold_async. open_world w.
  destruct r as [[s | e1] [l | e2] [u | e3]];
    split_cases; repeat split.
Qed.

(** The directive text after a cycle whose requests all succeed: the
    mirrored value, unless the closure's copy of the edit flag is set. *)
Lemma poll_userInput (w : World) (s : Snapshot.t) (l : LogsBody) (u : UserInputBody) :
  JS.strict_eq (Snapshot.status s) "quota_exceeded" = false ->
  userInput (app (run (poll {| status_response := Fulfilled s;
                               logs_response := Fulfilled l;
                               user_input_response := Fulfilled u |}) w))
  = if closure_editingUserInput (polling w)
    then userInput (app w)
    else JS.str_or (user_input_field u) "".
Proof.
  intros Hq. unfold poll. unfold_async. open_world w. rewrite Hq.
  split_cases; reflexivity.
Qed.

(** A cycle never writes the directive text when the closure's copy of
    the edit flag is set. *)
Lemma poll_keeps_userInput (r : PollResponses) (w : World) :
  closure_editingUserInput (polling w) = true ->
  userInput (app (run (poll r) w)) = userInput (app w).
Proof.
  intros Hc. unfold poll. unfold_async. open_world w. subst.
  destruct r as [[s | e1] [l | e2] [u | e3]];
    split_cases; reflexivity.
Qed.

(** C10.  A cycle whose status is "quota_exceeded" stores the snapshot,
    sets [planningStuck] to false and returns: the logs, the directive
    text and the screenshot reference are what they were. *)
Theorem poll_quota_exceeded (w : World) (r : PollResponses) (s : Snapshot.t) :
  status_response r = Fulfilled s ->
  Snapshot.status s = Some "quota_exceeded" ->
  let w' := dispatch (poll r) w in
  status (app w') = s
  /\ planningStuck (app w') = false
  /\ logs (app w') = logs (app w)
  /\ userInput (app w') = userInput (app w)
  /\ screenshotUrl (app w') = screenshotUrl (app w).
Proof.
  intros Hr Hs. cbv zeta. rewrite !app_dispatch.
  unfold poll. unfold_async. rewrite Hr. cbn. rewrite Hs.
  unfold JS.strict_eq. cbn. repeat split.
Qed.

Lemma poll_quota_exceeded_witness :
  Snapshot.status (snapshotOf "quota_exceeded") = Some "quota_exceeded"
  /\ logs (app (dispatch (poll (answers "quota_exceeded" ["late line"] (Some "late text"))) composing))
     = logs (app composing)
  /\ userInput (app (dispatch (poll (answers "quota_exceeded" ["late line"] (Some "late text"))) composing))
     = "please wait".
Proof.
  pose proof (poll_quota_exceeded composing
                (answers "quota_exceeded" ["late line"] (Some "late text"))
                (snapshotOf "quota_exceeded") eq_refl eq_refl)
    as (_ & _ & Hl & Hu & _).
  split; [reflexivity | split; [exact Hl | exact Hu]].
Defined.

(** ** The edit guard *)

(** C1, evaluated where it fails.  The loop was started by the task
    submission, while the directive field had no focus, and its [poll]
    closure keeps that [editingUserInput].  The operator is now composing:
    the flag is true before and after the cycle, and the cycle still
    replaces the draft with the mirrored text. *)
Theorem poll_overwrites_draft_while_editing :
  editingUserInput (app composing) = true
  /\ userInput (app composing) = "please wait"
  /\ closure_editingUserInput (polling composing) = false
  /\ editingUserInput (app (step (PollTick (answers "planning" [] mirrored)) composing)) = true
  /\ userInput (app (step (PollTick (answers "planning" [] mirrored)) composing))
     = "scroll down first".
Proof. vm_compute. repeat split. Qed.

(** Cycles do keep the draft as long as the closure's own copy of the
    flag is set, whatever their number and however their requests
    settle. *)
Lemma polls_keep_userInput (rs : list PollResponses) (w : World) :
  closure_editingUserInput (polling w) = true ->
  settled w = true ->
  userInput (app (steps (map PollTick rs) w)) = userInput (app w).
Proof.
  revert w. induction rs as [| r rs IH]; intros w Hc Hs; [reflexivity|].
  cbn [map steps fold_left]. fold (steps (map PollTick rs) (step (PollTick r) w)).
  assert (Hstep : step (PollTick r) w = w \/ step (PollTick r) w = run (poll r) w).
  { unfold step. destruct (pollingRuns w); [right | now left].
    unfold dispatch, rerender.
    destruct (poll_frame r w) as (Hf & Hq & _ & Hdf & Hdq & _).
    rewrite Hf, Hq, Hdf, Hdq.
    unfold settled in Hs. apply andb_prop in Hs as [Hs _]. now rewrite Hs. }
  destruct Hstep as [-> | ->]; [now apply IH|].
  rewrite IH.
  - now apply poll_keeps_userInput.
  - destruct (poll_frame r w) as (_ & _ & _ & _ & _ & H & _). now rewrite H.
  - destruct (poll_frame r w) as (Hf & Hq & _ & Hdf & Hdq & _ & Hi).
    unfold settled, pollingRuns, pollingCondition in *.
    now rewrite Hf, Hq, Hdf, Hdq, Hi.
Qed.

(** What [submitUserInput] does to the edit flag: an accepted directive
    sets it to false, a failed one leaves it as it was. *)
Lemma submitUserInput_flag (w : World) (e : AxiosError) :
  editingUserInput (app (dispatch (submitUserInput (Fulfilled tt)) w)) = false
  /\ editingUserInput (app (dispatch (submitUserInput (Rejected e)) w))
     = editingUserInput (app w).
Proof. rewrite !app_dispatch. split; reflexivity. Qed.

(** The send does not reach the running loop: the effect, with the copy
    of the flag that its [poll] reads, is what it was. *)
Lemma submitUserInput_keeps_closure (s : Settled unit) (w : World) :
  settled w = true ->
  polling (dispatch (submitUserInput s) w) = polling w.
Proof.
  intros Hs. unfold settled in Hs. apply andb_prop in Hs as [Hs _].
  unfold dispatch, rerender.
  assert (H : app (run (submitUserInput s) w)
              = updLoading false
                  (match s with
                   | Fulfilled _ => updEditingUserInput false
                   | Rejected _ => fun a => a
                   end (updLoading true (app w)))
              /\ polling (run (submitUserInput s) w) = polling w).
  { destruct s; split; reflexivity. }
  destruct H as [Ha Hp]. rewrite Ha, Hp.
  destruct s; cbn; now rewrite Hs.
Qed.


(** ** The stall detector *)

(** A first dwell works: the cycle that first sees "planning" arms the
    timeout, and thirty seconds later [planningStuck] is true. *)
Lemma first_dwell_fires (w : World) (r : PollResponses) (s : Snapshot.t) :
  status_response r = Fulfilled s ->
  Snapshot.status s = Some "planning" ->
  planningTimer (polling w) = None ->
  planningStuck (app (elapse PLANNING_TIMEOUT (run (poll r) w))) = true.
Proof.
  intros Hr Hs Hn. unfold poll. unfold_async. rewrite Hr. cbn. rewrite Hs.
  unfold JS.strict_eq. cbn. rewrite Hn.
  assert (Hdue : forall l, existsb (isDue (clock w + PLANNING_TIMEOUT))
                      (l ++ [(next_handle w, (clock w + PLANNING_TIMEOUT)%N)]) = true).
  { intros l0. rewrite existsb_app. cbn. unfold isDue. cbn.
    rewrite N.leb_refl. now rewrite Bool.orb_true_r. }
  destruct (logs_response r), (user_input_response r); cbn;
    try destruct (closure_editingUserInput (polling w)); cbn;
    unfold elapse; cbn; rewrite Hdue; reflexivity.
Qed.

(** Once [planningTimer] holds a handle it holds it for good: no cycle
    clears the variable, and so no cycle arms a timeout again.  The
    pending timeouts after a cycle are the ones before it, less the one
    the handle names when the status was not "planning". *)
Lemma stale_handle_blocks_timer (w : World) (r : PollResponses) (h : positive) :
  planningTimer (polling w) = Some h ->
  planningTimer (polling (run (poll r) w)) = Some h
  /\ (timeouts (run (poll r) w) = timeouts w
      \/ timeouts (run (poll r) w) = cancel h (timeouts w)).
Proof.
  intros Hh. unfold poll. unfold_async. open_world w. subst.
  destruct r as [[s | e1] [l | e2] [u | e3]];
    split_cases; split; auto.
Qed.

(** The "quota_exceeded" branch returns before the timeout is looked at:
    a timeout armed during planning stays pending. *)
Lemma quota_exit_keeps_timer (w : World) (r : PollResponses) (s : Snapshot.t) :
  status_response r = Fulfilled s ->
  Snapshot.status s = Some "quota_exceeded" ->
  timeouts (run (poll r) w) = timeouts w.
Proof.
  intros Hr Hs. unfold poll. unfold_async. rewrite Hr. cbn. rewrite Hs.
  reflexivity.
Qed.

(** C2, evaluated where it fails.  The agent planned, went idle, and
    planned again; from then on every cycle for 36 seconds reports
    "planning".  The handle of the first, cancelled timeout is still in
    [planningTimer], no timeout is pending, and [planningStuck] is
    false. *)
Theorem second_dwell_never_fires :
  Snapshot.status (status (app reentered)) = Some "planning"
  /\ Snapshot.status (status (app dwelling)) = Some "planning"
  /\ clock dwelling = (clock reentered + 36000)%N
  /\ planningTimer (polling dwelling) = Some 3%positive
  /\ timeouts dwelling = []
  /\ planningStuck (app dwelling) = false.
Proof. vm_compute. repeat split. Qed.

(** A planning dwell that ends in "quota_exceeded" leaves its timeout
    armed, and the timeout sets [planningStuck] later on. *)
Lemma quota_exit_fires_later :
  planningStuck (app exhausted) = false
  /\ timeouts exhausted = [(3%positive, 30000%N)]
  /\ planningStuck (app (steps [Elapse PLANNING_TIMEOUT] exhausted)) = true.
Proof. vm_compute. repeat split. Qed.

(** ** Quota *)

(** C3, evaluated where it fails.  The cycle has stored the
    "quota_exceeded" snapshot, and [quotaError] is still false: the loop
    goes on, the next tick sends its status request, and of the two
    operator buttons only Kill is offered. *)
Theorem quota_exceeded_not_latched :
  Snapshot.status (status (app exhausted)) = Some "quota_exceeded"
  /\ quotaError (app exhausted) = false
  /\ pollingRuns exhausted = true
  /\ trace (step (PollTick (answers "quota_exceeded" [] None)) exhausted)
     = trace exhausted ++ [Get (Api.endpoint "/status")]
  /\ resetAvailable (app exhausted) = false
  /\ killAvailable (app exhausted) = true.
Proof. vm_compute. repeat split. Qed.

(** *** What no event changes *)

Ltac unfold_handlers :=
  unfold submitTask, submitUserInput, resetAgent, killSwitch, killSwitchUpdates,
    reload, clearLogs, submitPendingAnswer, pollPendingQuestion in *.

(** A reload keeps what the new page has anyway. *)
Lemma quotaError_navigation (w w' : World) :
  quotaError (app w') = false -> quotaError (app (navigation w w')) = false.
Proof.
  intros H. unfold navigation. destruct (existsb _ _); [reflexivity | exact H].
Qed.

Lemma settled_navigation (w w' : World) :
  settled w' = true -> settled (navigation w w') = true.
Proof.
  intros H. unfold navigation. destruct (existsb _ _); [reflexivity | exact H].
Qed.

Lemma quotaError_question_tick (s : Settled QuestionBody) (w : World) :
  quotaError (app (step (QuestionTick s) w)) = quotaError (app w).
Proof.
  unfold step. cbv zeta.
  destruct (_ && _); rewrite !app_dispatch; cbn; rewrite ?app_dispatch;
    destruct s; reflexivity.
Qed.

(** No event sets [quotaError]: the only call of its setter passes
    [false]. *)
Lemma step_quotaError (e : Event) (w : World) :
  quotaError (app w) = false -> quotaError (app (step e w)) = false.
Proof.
  intros H.
  destruct e; try (now rewrite quotaError_question_tick);
    unfold step; cbv zeta;
    try match goal with
        | |- context [if ?g then _ else _] => destruct g; [| try exact H]; try exact H
        end;
    try apply quotaError_navigation;
    rewrite ?app_dispatch; try rewrite app_rerender;
    try (destruct (poll_frame r w) as (_ & Hq & _); now rewrite Hq);
    try (unfold elapse; cbn; destruct (existsb _ _); exact H);
    unfold_handlers; unfold_async;
    try destruct s; cbn; try exact H; reflexivity.
Qed.

(** Every event leaves the effect in step with the state. *)
Lemma step_settled (e : Event) (w : World) :
  settled w = true -> settled (step e w) = true.
Proof.
  intros H. pose proof (settled_coherent w H) as Hc.
  assert (Hq : forall s, settled (dispatch (pollPendingQuestion s) w) = true).
  { intros s. apply settled_rerender. destruct s; exact Hc. }
  destruct e; unfold step; cbv zeta;
    try match goal with
        | |- context [if ?g then _ else _] => destruct g; [| try exact H]; try exact H
        end;
    try apply Hq;
    try apply settled_navigation;
    apply settled_rerender;
    try (exact (settled_coherent _ (Hq s)));
    try (unfold effectCoherent, pollingRuns in *;
         destruct (poll_frame r w) as (_ & _ & _ & Hdf & Hdq & _ & Hi);
         now rewrite Hdf, Hdq, Hi);
    try exact Hc;
    unfold_handlers; unfold_async;
    try destruct s; cbn; try exact Hc; reflexivity.
Qed.

Lemma steps_snoc (es : list Event) (e : Event) (w : World) :
  steps (es ++ [e]) w = step e (steps es w).
Proof. unfold steps. now rewrite fold_left_app. Qed.

(** Whatever the operator, the server and the clock do from the moment
    the page is loaded, [quotaError] is false and the effect is in step
    with the state. *)
Lemma quotaError_never_set (es : list Event) (now : N) (sofar : list Output) :
  quotaError (app (steps es (mount now sofar))) = false
  /\ settled (steps es (mount now sofar)) = true.
Proof.
  induction es as [| e es IH] using rev_ind; [split; reflexivity|].
  rewrite steps_snoc. destruct IH as [Hq Hs]. split.
  - now apply step_quotaError.
  - now apply step_settled.
Qed.

(** So the quota notice, with its Reset and Kill buttons, is never
    rendered. *)
Lemma quota_notice_unreachable (es : list Event) (now : N) (sofar : list Output) :
  notice (controls (app (steps es (mount now sofar))))
  <> Some "LLM quota or rate limit exceeded. Please reset or try again later.".
Proof.
  destruct (quotaError_never_set es now sofar) as [Hq _].
  unfold controls. rewrite Hq.
  destruct (planningStuck _); cbn; congruence.
Qed.

(** A tick of the question poll that fails opens no modal. *)
Lemma question_tick_rejected (w : World) (e : AxiosError) :
  step (QuestionTick (Rejected e)) w = dispatch (pollPendingQuestion (Rejected e)) w.
Proof.
  unfold step. cbv zeta. rewrite app_dispatch.
  change (pendingQuestion (app (run (pollPendingQuestion (Rejected e)) w)))
    with (pendingQuestion (app w)).
  destruct (JS.to_bool (pendingQuestion (app w))); reflexivity.
Qed.

(** The pending-question poll does not depend on the main loop: its tick
    is taken in every world, and a failure is swallowed. *)
Lemma question_poll_always_on (w : World) (q : option string) (e : AxiosError) :
  pendingQuestion (app (step (QuestionTick (Fulfilled {| question_field := q |})) w)) = q
  /\ app (step (QuestionTick (Rejected e)) w) = app w.
Proof.
  split.
  - unfold step. cbv zeta.
    destruct (_ && _); rewrite !app_dispatch; cbn; rewrite ?app_dispatch; reflexivity.
  - rewrite question_tick_rejected, app_dispatch. reflexivity.
Qed.

(** * Further properties *)

(** ** Handlers *)

(** Every handler that sets [loading] clears it again, whether its
    request succeeds or fails, and [killSwitch] does the same for
    [killing]: no outcome leaves the buttons disabled. *)
Theorem handlers_release_guards (w : World) (s : Settled unit) :
  loading (app (dispatch (submitTask s) w)) = false
  /\ loading (app (dispatch (submitUserInput s) w)) = false
  /\ loading (app (dispatch (resetAgent s) w)) = false
  /\ loading (app (dispatch (clearLogs s) w)) = false
  /\ loading (app (dispatch (killSwitch s) w)) = false
  /\ killing (app (dispatch (killSwitch s) w)) = false.
Proof.
  rewrite !app_dispatch. unfold_handlers. unfold_async.
  destruct s; cbn; repeat split.
Qed.

(** A Kill that fails shows its alert, sends nothing but the one request
    and changes no state besides the two guards, which it releases. *)
Theorem killSwitch_failure (w : World) (e : AxiosError) :
  app (dispatch (killSwitch (Rejected e)) w)
  = updLoading false (updKilling false (updLoading true (updKilling true (app w))))
  /\ trace (dispatch (killSwitch (Rejected e)) w)
     = trace w ++ [Post (Api.endpoint "/kill") None;
                   Alert "Failed to kill/reset agent"].
Proof.
  rewrite app_dispatch, trace_dispatch. unfold_handlers. unfold_async. cbn.
  rewrite <- app_assoc. split; reflexivity.
Qed.

(** After a render the loop runs exactly when the state meets the
    effect's condition. *)
Lemma pollingRuns_rerender (w : World) :
  effectCoherent w = true -> pollingRuns (rerender w) = pollingCondition (app w).
Proof.
  intros H. pose proof (settled_rerender w H) as Hs.
  unfold settled in Hs. apply andb_prop in Hs as [_ Hs].
  apply Bool.eqb_prop in Hs. now rewrite app_rerender in Hs.
Qed.

Lemma coherent_resetAgent (s : Settled unit) (w : World) :
  effectCoherent (run (resetAgent s) w) = effectCoherent w.
Proof. destruct s; reflexivity. Qed.

(** A Reset that succeeds empties the task, the directive, the snapshot,
    the logs and the screenshot reference, closes the log panel, sets
    [fresh] and clears [quotaError]; the loop is stopped.  It leaves
    [planningStuck], the edit flag, the pending question and the answer
    draft as they were: a stall notice that was showing keeps showing. *)
Theorem resetAgent_success (w : World) :
  settled w = true ->
  let w' := dispatch (resetAgent (Fulfilled tt)) w in
  (task (app w') = "" /\ userInput (app w') = ""
   /\ status (app w') = Snapshot.empty /\ logs (app w') = []
   /\ screenshotUrl (app w') = "" /\ logsOpen (app w') = false
   /\ fresh (app w') = true /\ quotaError (app w') = false)
  /\ pollingRuns w' = false
  /\ (planningStuck (app w') = planningStuck (app w)
      /\ editingUserInput (app w') = editingUserInput (app w)
      /\ pendingQuestion (app w') = pendingQuestion (app w)
      /\ pendingAnswer (app w') = pendingAnswer (app w)).
Proof.
  intros Hs. cbv zeta. split; [| split].
  - rewrite !app_dispatch. repeat split.
  - unfold dispatch. rewrite pollingRuns_rerender.
    + reflexivity.
    + rewrite coherent_resetAgent. now apply settled_coherent.
  - rewrite !app_dispatch. repeat split.
Qed.

Lemma resetAgent_success_witness :
  settled started = true
  /\ pollingRuns started = true
  /\ pollingRuns (dispatch (resetAgent (Fulfilled tt)) started) = false.
Proof.
  split; [reflexivity | split; [reflexivity |]].
  exact (proj1 (proj2 (resetAgent_success started eq_refl))).
Defined.

(** Clearing the logs: on success the local logs are empty, on failure
    they are untouched and the operator is told.  The clearing does not
    outlast the next poll cycle, which stores whatever the server reports
    (an absent [logs] field counting as no lines). *)
Theorem clearLogs_outcomes
  (w : World) (e : AxiosError) (s : Snapshot.t) (l : LogsBody) (u : UserInputBody) :
  logs (app (dispatch (clearLogs (Fulfilled tt)) w)) = []
  /\ (logs (app (dispatch (clearLogs (Rejected e)) w)) = logs (app w)
      /\ trace (dispatch (clearLogs (Rejected e)) w)
         = trace w ++ [Post (Api.endpoint "/clear_logs") None;
                       Alert "Failed to clear logs"])
  /\ (JS.strict_eq (Snapshot.status s) "quota_exceeded" = false ->
      logs (app (dispatch (poll {| status_response := Fulfilled s;
                                   logs_response := Fulfilled l;
                                   user_input_response := Fulfilled u |})
                          (dispatch (clearLogs (Fulfilled tt)) w)))
      = JS.arr_or (logs_field l) []).
Proof.
  split; [| split; [split |]].
  - rewrite app_dispatch. reflexivity.
  - rewrite app_dispatch. reflexivity.
  - rewrite trace_dispatch. unfold_handlers. unfold_async. cbn.
    now rewrite <- app_assoc.
  - intros Hq. rewrite app_dispatch.
    generalize (dispatch (clearLogs (Fulfilled tt)) w). intros w0.
    unfold poll. unfold_async. open_world w0. rewrite Hq.
    split_cases; reflexivity.
Qed.

Lemma clearLogs_outcomes_witness :
  JS.strict_eq (Snapshot.status (snapshotOf "idle")) "quota_exceeded" = false
  /\ logs (app (dispatch (poll (answers "idle" ["step 1 done"] None))
                         (dispatch (clearLogs (Fulfilled tt)) started)))
     = ["step 1 done"].
Proof.
  split; [reflexivity |].
  exact (proj2 (proj2 (clearLogs_outcomes started {| response_data_error := None |}
                         (snapshotOf "idle")
                         {| logs_field := Some ["step 1 done"] |}
                         {| user_input_field := None |}))
               eq_refl).
Defined.

(** Sending a directive posts the text of the directive field and leaves
    the field as it is, on success and on failure alike; a failure shows
    the fixed alert, whatever the server said. *)
Theorem submitUserInput_keeps_buffer (w : World) (e : AxiosError) :
  (userInput (app (dispatch (submitUserInput (Fulfilled tt)) w)) = userInput (app w)
   /\ trace (dispatch (submitUserInput (Fulfilled tt)) w)
      = trace w ++ [Post (Api.endpoint "/user_input")
                         (Some ("user_input", userInput (app w)))])
  /\ (userInput (app (dispatch (submitUserInput (Rejected e)) w)) = userInput (app w)
      /\ trace (dispatch (submitUserInput (Rejected e)) w)
         = trace w ++ [Post (Api.endpoint "/user_input")
                            (Some ("user_input", userInput (app w)));
                       Alert "Failed to send direction/feedback"]).
Proof.
  rewrite !app_dispatch, !trace_dispatch. unfold_handlers. unfold_async. cbn.
  rewrite <- app_assoc. repeat split.
Qed.

(** ** More about the poll cycle *)

(** A request that fails ends the cycle where it stands.  If it is the
    status request, no state changes at all; if it is the logs request,
    the snapshot is stored and the logs, the directive text and the
    screenshot reference keep their values; if it is the mirrored-input
    request, the directive text and the screenshot reference do. *)
Theorem poll_failed_requests
  (w : World) (e : AxiosError) (s : Snapshot.t) (l : LogsBody)
  (lr : Settled LogsBody) (ur : Settled UserInputBody) :
  app (dispatch (poll {| status_response := Rejected e;
                         logs_response := lr; user_input_response := ur |}) w)
  = app w
  /\ (let w' := dispatch (poll {| status_response := Fulfilled s;
                                  logs_response := Rejected e;
                                  user_input_response := ur |}) w in
      status (app w') = s
      /\ logs (app w') = logs (app w)
      /\ userInput (app w') = userInput (app w)
      /\ screenshotUrl (app w') = screenshotUrl (app w))
  /\ (let w' := dispatch (poll {| status_response := Fulfilled s;
                                  logs_response := Fulfilled l;
                                  user_input_response := Rejected e |}) w in
      status (app w') = s
      /\ userInput (app w') = userInput (app w)
      /\ screenshotUrl (app w') = screenshotUrl (app w)).
Proof.
  cbv zeta. rewrite !app_dispatch. split; [reflexivity |].
  unfold poll. unfold_async. open_world w.
  split; split_cases; repeat split.
Qed.

(** No cycle, however its requests settle, touches the task text, the
    in-flight guards, the log panel's visibility or the pending question
    and its answer draft. *)
Theorem poll_never_touches (r : PollResponses) (w : World) :
  let w' := dispatch (poll r) w in
  task (app w') = task (app w)
  /\ loading (app w') = loading (app w)
  /\ killing (app w') = killing (app w)
  /\ logsOpen (app w') = logsOpen (app w)
  /\ pendingQuestion (app w') = pendingQuestion (app w)
  /\ pendingAnswer (app w') = pendingAnswer (app w).
Proof.
  cbv zeta. rewrite !app_dispatch. unfold poll. unfold_async. open_world w.
  destruct r as [[s | e1] [l | e2] [u | e3]];
    split_cases; repeat split.
Qed.

(** A cycle leaves the clock alone. *)
Lemma clock_poll (r : PollResponses) (w : World) : clock (run (poll r) w) = clock w.
Proof.
  unfold poll. unfold_async. open_world w.
  destruct r as [[s | e1] [l | e2] [u | e3]];
    split_cases; reflexivity.
Qed.

(** The cycle that first sees "planning" arms one timeout, thirty
    seconds ahead, and touches neither [planningStuck] nor the timeouts
    that were pending. *)
Lemma poll_arms_timeout (w : World) (r : PollResponses) (s : Snapshot.t) :
  status_response r = Fulfilled s ->
  Snapshot.status s = Some "planning" ->
  planningTimer (polling w) = None ->
  timeouts (run (poll r) w)
  = timeouts w ++ [(next_handle w, (clock w + PLANNING_TIMEOUT)%N)]
  /\ planningStuck (app (run (poll r) w)) = planningStuck (app w)
  /\ planningTimer (polling (run (poll r) w)) = Some (next_handle w).
Proof.
  intros Hr Hs Hn. unfold poll. unfold_async. rewrite Hr. cbn. rewrite Hs.
  unfold JS.strict_eq. cbn. rewrite Hn.
  destruct (logs_response r), (user_input_response r); cbn;
    try destruct (closure_editingUserInput (polling w)); cbn;
    repeat split.
Qed.

Lemma planningStuck_elapse (dt : N) (w : World) :
  planningStuck (app (elapse dt w))
  = existsb (isDue (clock w + dt)) (timeouts w) || planningStuck (app w).
Proof.
  unfold elapse. cbn. destruct (existsb _ _); reflexivity.
Qed.



(** A timeout armed during planning outlives a move to "quota_exceeded":
    thirty seconds after the planning cycle [planningStuck] is true, with
    the stored status reading "quota_exceeded". *)
Theorem quota_exit_sets_planningStuck
  (w : World) (r1 r2 : PollResponses) (s1 s2 : Snapshot.t) :
  status_response r1 = Fulfilled s1 ->
  Snapshot.status s1 = Some "planning" ->
  planningTimer (polling w) = None ->
  status_response r2 = Fulfilled s2 ->
  Snapshot.status s2 = Some "quota_exceeded" ->
  let w' := elapse PLANNING_TIMEOUT (run (poll r2) (run (poll r1) w)) in
  planningStuck (app w') = true /\ status (app w') = s2.
Proof.
  intros Hr1 Hs1 Hn Hr2 Hs2. cbv zeta. split.
  - rewrite planningStuck_elapse.
    rewrite (quota_exit_keeps_timer _ r2 s2 Hr2 Hs2), !clock_poll.
    destruct (poll_arms_timeout w r1 s1 Hr1 Hs1 Hn) as (Hto & _).
    rewrite Hto, existsb_app. cbn. unfold isDue. cbn.
    rewrite N.leb_refl. now rewrite !Bool.orb_true_r.
  - unfold elapse. cbn [app].
    assert (Hst : status (app (run (poll r2) (run (poll r1) w))) = s2).
    { generalize (run (poll r1) w). intros w0.
      unfold poll. unfold_async. rewrite Hr2. cbn. rewrite Hs2. reflexivity. }
    destruct (existsb _ _); [cbn |]; exact Hst.
Qed.

Lemma quota_exit_sets_planningStuck_witness :
  planningTimer (polling justStarted) = None
  /\ planningStuck
       (app (elapse PLANNING_TIMEOUT
               (run (poll (answers "quota_exceeded" [] None))
                    (run (poll (answers "planning" [] None)) justStarted))))
     = true.
Proof.
  split; [reflexivity |].
  exact (proj1 (quota_exit_sets_planningStuck justStarted
                  (answers "planning" [] None) (answers "quota_exceeded" [] None)
                  (snapshotOf "planning") (snapshotOf "quota_exceeded")
                  eq_refl eq_refl eq_refl eq_refl eq_refl)).
Defined.

(** A tick of the interval in a settled world: nothing if the loop is
    off, else exactly the cycle. *)
Lemma step_PollTick (r : PollResponses) (w : World) :
  settled w = true ->
  (pollingRuns w = false /\ step (PollTick r) w = w)
  \/ (pollingRuns w = true /\ step (PollTick r) w = run (poll r) w).
Proof.
  intros Hs. unfold step. destruct (pollingRuns w); [right | now left].
  split; [reflexivity |].
  unfold dispatch, rerender.
  destruct (poll_frame r w) as (Hf & Hq & _ & Hdf & Hdq & _).
  rewrite Hf, Hq, Hdf, Hdq.
  unfold settled in Hs. apply andb_prop in Hs as [Hs _]. now rewrite Hs.
Qed.

Lemma cancel_incl (h : positive) (l : list (positive * N)) : incl (cancel h l) l.
Proof. unfold cancel. apply incl_filter. Qed.

(** A loop arms at most one stall timeout in its life: once
    [planningTimer] holds a handle, no number of cycles, whatever they
    report, changes the handle or adds a pending timeout. *)
Theorem one_timeout_per_loop (rs : list PollResponses) (w : World) (h : positive) :
  settled w = true ->
  planningTimer (polling w) = Some h ->
  let w' := steps (map PollTick rs) w in
  planningTimer (polling w') = Some h /\ incl (timeouts w') (timeouts w).
Proof.
  cbv zeta. revert w. induction rs as [| r rs IH]; intros w Hs Hh.
  - split; [exact Hh | apply incl_refl].
  - cbn [map]. change (steps (PollTick r :: map PollTick rs) w)
      with (steps (map PollTick rs) (step (PollTick r) w)).
    pose proof (step_settled (PollTick r) w Hs) as Hs'.
    destruct (step_PollTick r w Hs) as [[_ E] | [_ E]]; rewrite E in *.
    + now apply IH.
    + destruct (stale_handle_blocks_timer w r h Hh) as [Hh' Ht].
      destruct (IH _ Hs' Hh') as [IH1 IH2]. split; [exact IH1 |].
      destruct Ht as [Ht | Ht]; rewrite Ht in IH2; [exact IH2 |].
      eapply incl_tran; [exact IH2 | apply cancel_incl].
Qed.

Lemma one_timeout_per_loop_witness :
  settled reentered = true
  /\ planningTimer (polling reentered) = Some 3%positive
  /\ incl (timeouts (steps (map PollTick [answers "planning" [] None; offline;
                                          answers "planning" [] None]) reentered))
          (timeouts reentered).
Proof.
  split; [reflexivity | split; [reflexivity |]].
  exact (proj2 (one_timeout_per_loop
                  [answers "planning" [] None; offline; answers "planning" [] None]
                  reentered 3%positive eq_refl eq_refl)).
Defined.

(** A cycle that fails does not stop the loop: after a tick of the
    interval the loop runs if and only if it ran before, however the
    requests of the cycle settled. *)
Theorem failed_cycle_keeps_loop (r : PollResponses) (w : World) :
  settled w = true ->
  pollingRuns (step (PollTick r) w) = pollingRuns w.
Proof.
  intros Hs.
  destruct (step_PollTick r w Hs) as [[_ E] | [_ E]]; rewrite E; [reflexivity |].
  unfold pollingRuns.
  destruct (poll_frame r w) as (_ & _ & _ & _ & _ & _ & Hi). now rewrite Hi.
Qed.

Lemma failed_cycle_keeps_loop_witness :
  settled started = true
  /\ pollingRuns started = true
  /\ pollingRuns (step (PollTick offline) started) = true.
Proof.
  split; [reflexivity | split; [reflexivity |]].
  exact (failed_cycle_keeps_loop offline started eq_refl).
Defined.

(** ** The screenshot reference *)

Lemma append_cancel (p a b : string) : String.append p a = String.append p b -> a = b.
Proof.
  induction p as [| c p IH]; cbn; intros H; [exact H |].
  injection H as H. now apply IH.
Qed.

(** Numbers print differently when they differ. *)
Lemma number_to_string_inj (n m : N) :
  JS.number_to_string n = JS.number_to_string m -> n = m.
Proof.
  unfold JS.number_to_string. intros H.
  assert (Hnil : forall k, N.to_uint k <> Decimal.Nil).
  { intros [| p]; cbn; [discriminate | apply DecimalPos.Unsigned.to_uint_nonnil]. }
  apply DecimalN.Unsigned.to_uint_inj.
  pose proof (NilZero.usu (N.to_uint n) (Hnil n)) as Hn.
  pose proof (NilZero.usu (N.to_uint m) (Hnil m)) as Hm.
  rewrite H in Hn. rewrite Hn in Hm. now injection Hm.
Qed.

(** The screenshot reference of a cycle that runs to its end is the
    screenshot address followed by the time of the cycle. *)
Lemma poll_screenshotUrl (w : World) (s : Snapshot.t) (l : LogsBody) (u : UserInputBody) :
  JS.strict_eq (Snapshot.status s) "quota_exceeded" = false ->
  screenshotUrl (app (run (poll {| status_response := Fulfilled s;
                                   logs_response := Fulfilled l;
                                   user_input_response := Fulfilled u |}) w))
  = String.append (Api.endpoint "/screenshot?") (JS.number_to_string (clock w)).
Proof.
  intros Hq. unfold poll. unfold_async. open_world w. rewrite Hq.
  split_cases; reflexivity.
Qed.

(** The reference busts the cache: two cycles that run to their end at
    different times never store the same screenshot reference, whatever
    else is the same. *)
Theorem screenshot_reference_busts_cache
  (w1 w2 : World) (s1 s2 : Snapshot.t) (l1 l2 : LogsBody) (u1 u2 : UserInputBody) :
  JS.strict_eq (Snapshot.status s1) "quota_exceeded" = false ->
  JS.strict_eq (Snapshot.status s2) "quota_exceeded" = false ->
  clock w1 <> clock w2 ->
  screenshotUrl (app (run (poll {| status_response := Fulfilled s1;
                                   logs_response := Fulfilled l1;
                                   user_input_response := Fulfilled u1 |}) w1))
  <> screenshotUrl (app (run (poll {| status_response := Fulfilled s2;
                                      logs_response := Fulfilled l2;
                                      user_input_response := Fulfilled u2 |}) w2)).
Proof.
  intros H1 H2 Hc E. rewrite !poll_screenshotUrl in E by assumption.
  apply append_cancel, number_to_string_inj in E. contradiction.
Qed.

Lemma screenshot_reference_busts_cache_witness :
  clock justStarted <> clock started
  /\ screenshotUrl (app (run (poll (answers "planning" [] None)) justStarted))
     <> screenshotUrl (app (run (poll (answers "planning" [] None)) started)).
Proof.
  assert (Hc : clock justStarted <> clock started) by (vm_compute; discriminate).
  split; [exact Hc |].
  exact (screenshot_reference_busts_cache justStarted started
           (snapshotOf "planning") (snapshotOf "planning")
           {| logs_field := Some [] |} {| logs_field := Some [] |}
           {| user_input_field := None |} {| user_input_field := None |}
           eq_refl eq_refl Hc).
Defined.

(** ** From page load on *)

Lemma reachable_loop (es : list Event) (now : N) (sofar : list Output) :
  pollingRuns (steps es (mount now sofar))
  = negb (fresh (app (steps es (mount now sofar)))).
Proof.
  destruct (quotaError_never_set es now sofar) as [Hq Hs].
  unfold settled in Hs. apply andb_prop in Hs as [_ Hs].
  apply Bool.eqb_prop in Hs. rewrite Hs. unfold pollingCondition.
  rewrite Hq. apply Bool.andb_true_r.
Qed.

(** From the moment the page is loaded, whatever the operator, the
    server and the clock do: the main loop runs exactly when [fresh] is
    false, so from the first accepted task to the next Reset or Kill. *)
Theorem main_loop_tracks_fresh (es : list Event) (now : N) (sofar : list Output) :
  let w := steps es (mount now sofar) in
  pollingRuns w = negb (fresh (app w))
  /\ (forall r, pollingRuns w = true -> step (PollTick r) w = run (poll r) w).
Proof.
  cbv zeta. split; [apply reachable_loop |].
  intros r Hr. destruct (quotaError_never_set es now sofar) as [_ Hs].
  destruct (step_PollTick r _ Hs) as [[H _] | [_ H]]; [congruence | exact H].
Qed.

(** ** The operator's controls *)

(** In every state of the page the Kill button is rendered: each of the
    three branches of the control block shows it, so neither the quota
    notice, nor the stall notice, nor the status hides it.  It is enabled
    exactly when no operation is in flight ([loading] and [killing]
    false). *)
Theorem kill_shown_in_every_state (a : App) :
  killShown (controls a) = true
  /\ buttonsDisabled (controls a) = (loading a || killing a)
  /\ killAvailable a = negb (loading a || killing a).
Proof.
  unfold killAvailable, controls.
  destruct (quotaError a), (planningStuck a); repeat split.
Qed.

(** In every state of the page the Reset button is rendered exactly when
    one of the two notices shows ([quotaError] or [planningStuck]) or the
    agent has been started and has come to rest (status completed, idle or
    aborted): under the stall notice it is offered while the status is
    still "planning", and even on a fresh page.  It is enabled exactly
    when it is rendered and no operation is in flight. *)
Theorem reset_offered (a : App) :
  resetShown (controls a)
  = (quotaError a || planningStuck a || (negb (fresh a) && statusReady (status a)))
  /\ resetAvailable a = resetShown (controls a) && negb (loading a || killing a).
Proof.
  unfold resetAvailable, controls, statusReady.
  destruct (quotaError a), (planningStuck a), (fresh a),
    (JS.strict_eq _ "completed"), (JS.strict_eq _ "idle"), (JS.strict_eq _ "aborted");
    split; reflexivity.
Qed.

(** ** The edit flag and the running loop *)

(** Focus and blur set the flag of the state and nothing else: the
    effect and the copy of the flag that its [poll] reads stay as they
    are. *)
Theorem focus_never_reaches_the_loop (w : World) :
  settled w = true ->
  (editingUserInput (app (dispatch (setEditingUserInput true) w)) = true
   /\ polling (dispatch (setEditingUserInput true) w) = polling w)
  /\ (editingUserInput (app (step BlurUserInput w)) = false
      /\ polling (step BlurUserInput w) = polling w).
Proof.
  intros Hs. unfold settled in Hs.
  apply andb_prop in Hs as [Hs _]. unfold step, dispatch, rerender.
  split; split; try (rewrite app_rerender; reflexivity); cbn; now rewrite Hs.
Qed.

Lemma focus_never_reaches_the_loop_witness :
  settled started = true
  /\ closure_editingUserInput (polling started) = false
  /\ polling (dispatch (setEditingUserInput true) started) = polling started.
Proof.
  split; [reflexivity | split; [reflexivity |]].
  exact (proj2 (proj1 (focus_never_reaches_the_loop started eq_refl))).
Defined.

Lemma polls_keep_userInput_witness :
  closure_editingUserInput (polling startedWhileEditing) = true
  /\ settled startedWhileEditing = true
  /\ userInput (app (steps (map PollTick [answers "planning" [] mirrored;
                                          answers "idle" [] mirrored])
                           startedWhileEditing))
     = userInput (app startedWhileEditing).
Proof.
  split; [reflexivity | split; [reflexivity |]].
  exact (polls_keep_userInput
           [answers "planning" [] mirrored; answers "idle" [] mirrored]
           startedWhileEditing eq_refl eq_refl).
Defined.

(** ** The pending question *)

(** A tick of the question poll stores what the server reports, a
    question or none, and touches neither the directive text, nor the
    task, nor the answer draft; the directive field is as enabled as
    before.  A tick that fails changes no state and shows no alert. *)
Theorem question_poll_frame (w : World) (q : QuestionBody) (e : AxiosError) :
  (let w' := step (QuestionTick (Fulfilled q)) w in
   pendingQuestion (app w') = question_field q
   /\ userInput (app w') = userInput (app w)
   /\ task (app w') = task (app w)
   /\ pendingAnswer (app w') = pendingAnswer (app w)
   /\ userInputLoading (app w') = userInputLoading (app w))
  /\ (let w' := step (QuestionTick (Rejected e)) w in
      app w' = app w
      /\ trace w' = trace w ++ [Get "http://127.0.0.1:8000/pending_question"]).
Proof.
  cbv zeta. split.
  - unfold step. cbv zeta.
    destruct (_ && _); rewrite !app_dispatch; cbn; rewrite ?app_dispatch;
      repeat split.
  - rewrite question_tick_rejected, app_dispatch, trace_dispatch. split; reflexivity.
Qed.

(** ** The status summary *)

(** Decides the comparisons of a goal and leaves the arithmetic to [lia]. *)
Ltac decide_order :=
  repeat match goal with
         | |- context [Nat.leb ?a ?b] => destruct (Nat.leb_spec a b)
         | |- context [Nat.ltb ?a ?b] => destruct (Nat.ltb_spec a b)
         end;
  cbn [andb length]; try reflexivity; lia.

Lemma mapi_labels (ps : option nat) (l : list Snapshot.PlanStep) (i : nat) :
  let items :=
    StatusSummary.mapi
      (fun step idx =>
         {| StatusSummary.label := StatusSummary.stepLabel step;
            StatusSummary.bold := StatusSummary.isCurrent idx ps;
            StatusSummary.chip := StatusSummary.isCurrent idx ps |}) i l in
  map StatusSummary.label items = map StatusSummary.stepLabel l
  /\ Forall (fun it => StatusSummary.bold it = StatusSummary.chip it) items
  /\ length (filter StatusSummary.chip items)
     = match ps with
       | Some k => if Nat.leb i k && Nat.ltb k (i + length l) then 1 else 0
       | None => 0
       end.
Proof.
  cbv zeta. revert i. induction l as [| x l IH]; intros i.
  - cbn [StatusSummary.mapi map filter length]. repeat split; [constructor |].
    destruct ps as [k |]; [| reflexivity]. decide_order.
  - destruct (IH (S i)) as (H1 & H2 & H3). cbn [StatusSummary.mapi map].
    split; [now rewrite H1 | split; [constructor; [reflexivity | exact H2] |]].
    cbn [filter StatusSummary.chip].
    destruct (StatusSummary.isCurrent i ps) eqn:Ec; cbn [length]; rewrite H3;
      destruct ps as [k |]; cbn [StatusSummary.isCurrent] in Ec;
      try discriminate; try reflexivity.
    + apply Nat.eqb_eq in Ec. subst k. decide_order.
    + apply Nat.eqb_neq in Ec. decide_order.
Qed.

(** The plan as shown: one item per step of the plan, in order, each
    with the step's description, else its action; the bold item is the
    one with the chip; and exactly one item carries the "In Progress" chip
    when [plan_step] is an index into the plan, none otherwise. *)
Theorem plan_marks_one_step (st : Snapshot.t) (v : StatusSummary.View)
  (items : list StatusSummary.PlanItem) :
  StatusSummary.render (Some st) = Some v ->
  StatusSummary.currentPlan v = Some items ->
  map StatusSummary.label items = map StatusSummary.stepLabel (Snapshot.current_plan st)
  /\ Forall (fun it => StatusSummary.bold it = StatusSummary.chip it) items
  /\ length (filter StatusSummary.chip items)
     = match Snapshot.plan_step st with
       | Some k => if Nat.ltb k (length (Snapshot.current_plan st)) then 1 else 0
       | None => 0
       end.
Proof.
  intros Hr Hp. unfold StatusSummary.render in Hr. injection Hr as <-.
  cbn [StatusSummary.currentPlan] in Hp.
  destruct (Snapshot.current_plan st) as [| x l] eqn:E; [discriminate |].
  injection Hp as <-.
  destruct (mapi_labels (Snapshot.plan_step st) (x :: l) 0) as (H1 & H2 & H3).
  split; [exact H1 | split; [exact H2 |]].
  etransitivity; [exact H3 |].
  destruct (Snapshot.plan_step st); reflexivity.
Qed.

Lemma plan_marks_one_step_witness :
  exists v items,
    StatusSummary.render (Some planned) = Some v
    /\ StatusSummary.currentPlan v = Some items
    /\ length (filter StatusSummary.chip items) = 1.
Proof.
  eexists _, _. split; [reflexivity | split; [reflexivity |]].
  exact (proj2 (proj2 (plan_marks_one_step planned _ _ eq_refl eq_refl))).
Defined.

(** The recent actions as shown: the last three entries of the history,
    the newest first, or all of them when there are fewer; the section is
    there only when the history is not empty. *)
Theorem recent_actions_newest_first (st : Snapshot.t) (v : StatusSummary.View)
  (acts : list (StatusSummary.Label Snapshot.ActionRecord)) :
  StatusSummary.render (Some st) = Some v ->
  StatusSummary.recentActions v = Some acts ->
  acts = map StatusSummary.actionLabel (firstn 3 (rev (Snapshot.history st)))
  /\ 1 <= length acts <= 3
  /\ length acts = Nat.min 3 (length (Snapshot.history st)).
Proof.
  intros Hr Ha. unfold StatusSummary.render in Hr. injection Hr as <-.
  cbn [StatusSummary.recentActions] in Ha.
  destruct (Snapshot.history st) as [| h t] eqn:E; [discriminate |].
  injection Ha as <-. unfold StatusSummary.sliceLast.
  rewrite <- firstn_rev.
  split; [reflexivity |].
  rewrite length_map, length_firstn, length_rev. cbn [length]. lia.
Qed.

Lemma recent_actions_newest_first_witness :
  exists v acts,
    StatusSummary.render (Some planned) = Some v
    /\ StatusSummary.recentActions v = Some acts
    /\ acts = [StatusSummary.Text "type";
               StatusSummary.Stringified {| Snapshot.record_action := None |};
               StatusSummary.Text "click"].
Proof.
  eexists _, _. split; [reflexivity | split; [reflexivity |]].
  exact (proj1 (recent_actions_newest_first planned _ _ eq_refl eq_refl)).
Defined.

(** ** The screenshot panel *)

Lemma imgError_stays (es : list ScreenshotPanel.Event) (p : ScreenshotPanel.Panel) :
  ScreenshotPanel.imgError p = true ->
  ScreenshotPanel.imgError (ScreenshotPanel.steps es p) = true.
Proof.
  revert p. induction es as [| e es IH]; intros p H; [exact H |].
  cbn. apply IH. destruct e; [reflexivity | exact H].
Qed.

Lemma last_nonempty {A : Type} (l : list A) (a d d' : A) :
  last (a :: l) d = last (a :: l) d'.
Proof.
  revert a. induction l as [| b l IH]; intros a; [reflexivity |].
  change (last (b :: l) d = last (b :: l) d'). apply IH.
Qed.

(** One failed load silences the panel for good: whatever URLs the
    parent passes afterwards, it shows "No screenshot available.".  Until
    a load fails it shows the image of the latest URL. *)
Theorem screenshot_error_latches
  (before after : list ScreenshotPanel.Event) (urls : list string) (url : string) :
  ScreenshotPanel.render
    (ScreenshotPanel.steps (before ++ ScreenshotPanel.OnError :: after)
                           (ScreenshotPanel.initial url))
  = ScreenshotPanel.NoScreenshot
  /\ ScreenshotPanel.render
       (ScreenshotPanel.steps (map ScreenshotPanel.NewUrl urls)
                              (ScreenshotPanel.initial url))
     = ScreenshotPanel.Image (last urls url).
Proof.
  split.
  - unfold ScreenshotPanel.steps. rewrite fold_left_app. cbn [fold_left].
    unfold ScreenshotPanel.render.
    rewrite (imgError_stays after); reflexivity.
  - unfold ScreenshotPanel.initial. generalize url.
    induction urls as [| u urls IH]; intros url0; [reflexivity |].
    cbn [map ScreenshotPanel.steps fold_left ScreenshotPanel.step].
    fold (ScreenshotPanel.steps (map ScreenshotPanel.NewUrl urls)
            {| ScreenshotPanel.screenshotUrl := u; ScreenshotPanel.imgError := false |}).
    cbn [ScreenshotPanel.imgError]. rewrite IH.
    destruct urls as [| u' urls]; [reflexivity |].
    apply f_equal. exact (last_nonempty urls u' u url0).
Qed.

